(** * Netflux: a shallow embedding of the protocol engine

    Netflux is a keep-alive UDP protocol: every datagram carries a two-byte
    header (own sequence number, echoed partner sequence number) followed by a
    fixed-size payload.  This file embeds the three Python classes that make
    up the engine,

    - [Receiver]   : [netflux_receiver.py], class [NetfluxReceiver];
    - [Sender]     : [netflux_sender.py], class [NetfluxSender];
    - [Statistics] : [netflux_statistics.py], class [NetfluxStatisticsTracker];

    and the part of [netflux_main.py] that ties them together ([Main]), and
    proves properties of them.

    Modelling conventions.

    - Python [int] is [Z]; [x & 0xFF] is [Z.land x 0xFF].
    - Python [float] is IEEE binary64, i.e. Rocq's primitive [float]; every
      reading of [time.time()] is an input of the function that reads it.
    - [bytes] and [bytearray] are [list byte].
    - An object is a record; a method takes the record and returns the
      updated one.  A method that calls the user's callback also returns the
      list of payloads it passed to it (an exception raised by the callback
      is caught and printed at the call site and changes nothing else).
    - A thread's [while self._running] loop is a fold of its body over the
      list of things the environment does in successive iterations.
    - An error message built with an f-string is a constructor that carries
      the interpolated values. *)

From Stdlib Require Import ZArith Lia Floats.PrimFloat Strings.Byte.
From stdpp Require Import base list strings.

Open Scope Z_scope.

(** ** Bytes *)

(** Reading an element of a [bytearray] gives an [int] in [range(256)]. *)
Definition int_of_byte (b : byte) : Z := Z.of_N (Byte.to_N b).

(** Storing an [int] into a [bytearray] raises [ValueError] ([None] here)
    unless the value is in [range(256)]. *)
Definition byte_of_int (v : Z) : option byte :=
  if (0 <=? v) && (v <? 256) then Byte.of_N (Z.to_N v) else None.

(** [buf[i]] for an index that is in range; the buffers of this program are
    allocated once with a fixed length and indexed at 0 and 1 only. *)
Definition byte_at (buf : list byte) (i : nat) : Z :=
  match buf !! i with
  | Some b => int_of_byte b
  | None => 0
  end.

(** [b'\x00' * n] *)
Definition zero_bytes (n : nat) : list byte := replicate n x00.

(** ** Receiver ([netflux_receiver.py]) *)

Module Receiver.

(** [error_message] of the receiver. *)
Inductive ErrorMessage : Type :=
| MsgEmpty                               (* "" *)
| MsgNotStarted                          (* "Not started" *)
| MsgNoValidPacket                       (* "No valid packet received yet" *)
| MsgWatchdogTimeout (time_since_last : float)
                                         (* f"Watchdog timeout ({time_since_last:.2f}s)" *)
| MsgReceiveError (e : string).          (* f"Receive error: {e}" *)

Record ReceiverStats : Type := mkStats {
  first_packet_received : bool;
  last_valid_packet_time : float;
  watchdog_timeout : bool;
  total_packets_received : Z;
  total_packets_rejected : Z
}.

(** The attributes of [NetfluxReceiver] that the receive thread reads or
    writes.  [data_size] is a size, hence a [nat]. *)
Record NetfluxReceiver : Type := mkReceiver {
  data_size : nat;
  watch_interval : float;
  keep_values_on_timeout : bool;
  _running : bool;
  _previous_recv_seq_number : Z;
  _previous_feedback_seq_number : Z;
  partner_seq_number : Z;
  current_feedback_seq_number : Z;
  error : bool;
  error_message : ErrorMessage;
  stats : ReceiverStats;
  _last_data : list byte
}.

(** [NetfluxReceiver.__init__] *)
Definition init (size : nat) (watch : float) (keep : bool) : NetfluxReceiver :=
  {| data_size := size;
     watch_interval := watch;
     keep_values_on_timeout := keep;
     _running := false;
     _previous_recv_seq_number := 0;
     _previous_feedback_seq_number := 0;
     partner_seq_number := 0;
     current_feedback_seq_number := 0;
     error := true;
     error_message := MsgNotStarted;
     stats := mkStats false 0%float false 0 0;
     _last_data := zero_bytes size |}.

(** *** Attribute assignments *)

Definition set_first_packet_received (v : bool) (s : ReceiverStats) : ReceiverStats :=
  mkStats v (last_valid_packet_time s) (watchdog_timeout s)
          (total_packets_received s) (total_packets_rejected s).

Definition set_last_valid_packet_time (v : float) (s : ReceiverStats) : ReceiverStats :=
  mkStats (first_packet_received s) v (watchdog_timeout s)
          (total_packets_received s) (total_packets_rejected s).

Definition set_watchdog_timeout (v : bool) (s : ReceiverStats) : ReceiverStats :=
  mkStats (first_packet_received s) (last_valid_packet_time s) v
          (total_packets_received s) (total_packets_rejected s).

Definition set_total_packets_received (v : Z) (s : ReceiverStats) : ReceiverStats :=
  mkStats (first_packet_received s) (last_valid_packet_time s) (watchdog_timeout s)
          v (total_packets_rejected s).

Definition set_total_packets_rejected (v : Z) (s : ReceiverStats) : ReceiverStats :=
  mkStats (first_packet_received s) (last_valid_packet_time s) (watchdog_timeout s)
          (total_packets_received s) v.

Definition with_stats (f : ReceiverStats -> ReceiverStats) (r : NetfluxReceiver)
  : NetfluxReceiver :=
  mkReceiver (data_size r) (watch_interval r) (keep_values_on_timeout r) (_running r)
             (_previous_recv_seq_number r) (_previous_feedback_seq_number r)
             (partner_seq_number r) (current_feedback_seq_number r)
             (error r) (error_message r) (f (stats r)) (_last_data r).

Definition set_running (v : bool) (r : NetfluxReceiver) : NetfluxReceiver :=
  mkReceiver (data_size r) (watch_interval r) (keep_values_on_timeout r) v
             (_previous_recv_seq_number r) (_previous_feedback_seq_number r)
             (partner_seq_number r) (current_feedback_seq_number r)
             (error r) (error_message r) (stats r) (_last_data r).

Definition set_previous_recv_seq_number (v : Z) (r : NetfluxReceiver) : NetfluxReceiver :=
  mkReceiver (data_size r) (watch_interval r) (keep_values_on_timeout r) (_running r)
             v (_previous_feedback_seq_number r)
             (partner_seq_number r) (current_feedback_seq_number r)
             (error r) (error_message r) (stats r) (_last_data r).

Definition set_previous_feedback_seq_number (v : Z) (r : NetfluxReceiver)
  : NetfluxReceiver :=
  mkReceiver (data_size r) (watch_interval r) (keep_values_on_timeout r) (_running r)
             (_previous_recv_seq_number r) v
             (partner_seq_number r) (current_feedback_seq_number r)
             (error r) (error_message r) (stats r) (_last_data r).

Definition set_partner_seq_number (v : Z) (r : NetfluxReceiver) : NetfluxReceiver :=
  mkReceiver (data_size r) (watch_interval r) (keep_values_on_timeout r) (_running r)
             (_previous_recv_seq_number r) (_previous_feedback_seq_number r)
             v (current_feedback_seq_number r)
             (error r) (error_message r) (stats r) (_last_data r).

Definition set_current_feedback_seq_number (v : Z) (r : NetfluxReceiver)
  : NetfluxReceiver :=
  mkReceiver (data_size r) (watch_interval r) (keep_values_on_timeout r) (_running r)
             (_previous_recv_seq_number r) (_previous_feedback_seq_number r)
             (partner_seq_number r) v
             (error r) (error_message r) (stats r) (_last_data r).

Definition set_error (v : bool) (m : ErrorMessage) (r : NetfluxReceiver)
  : NetfluxReceiver :=
  mkReceiver (data_size r) (watch_interval r) (keep_values_on_timeout r) (_running r)
             (_previous_recv_seq_number r) (_previous_feedback_seq_number r)
             (partner_seq_number r) (current_feedback_seq_number r)
             v m (stats r) (_last_data r).

Definition set_last_data (v : list byte) (r : NetfluxReceiver) : NetfluxReceiver :=
  mkReceiver (data_size r) (watch_interval r) (keep_values_on_timeout r) (_running r)
             (_previous_recv_seq_number r) (_previous_feedback_seq_number r)
             (partner_seq_number r) (current_feedback_seq_number r)
             (error r) (error_message r) (stats r) v.

(** [self.stats.total_packets_rejected += 1] *)
Definition count_rejected (r : NetfluxReceiver) : NetfluxReceiver :=
  with_stats (fun s => set_total_packets_rejected (total_packets_rejected s + 1) s) r.

(** [start()], when the socket could be created and bound: the thread is
    started and the message is cleared; the error flag stays set until the
    first packet is accepted. *)
Definition start (self : NetfluxReceiver) : NetfluxReceiver :=
  let self := set_running true self in
  set_error (error self) MsgEmpty self.

Definition started (size : nat) (watch : float) (keep : bool) : NetfluxReceiver :=
  start (init size watch keep).

(** *** [_is_new_packet] *)

Definition _is_new_packet (self : NetfluxReceiver) (recv_seq : Z) : bool :=
  if negb (first_packet_received (stats self)) then true
  else
    let diff := Z.land (recv_seq - _previous_recv_seq_number self) 0xFF in
    (1 <=? diff) && (diff <? 128).

(** *** [_check_watchdog]

    [now] is the reading of [time.time()]; each path through the method
    reads the clock at most once. *)
Definition _check_watchdog (self : NetfluxReceiver) (now : float)
  : NetfluxReceiver * list (list byte) :=
  if negb (first_packet_received (stats self)) then
    (set_error true MsgNoValidPacket self, [])
  else
    let feedback_changed :=
      negb (current_feedback_seq_number self =? _previous_feedback_seq_number self) in
    if feedback_changed then
      let self := with_stats (set_last_valid_packet_time now) self in
      let self := set_previous_feedback_seq_number (current_feedback_seq_number self) self in
      let self := with_stats (set_watchdog_timeout false) self in
      (self, [])
    else
      let time_since_last := (now - last_valid_packet_time (stats self))%float in
      if PrimFloat.ltb (watch_interval self) time_since_last then
        let self := with_stats (set_watchdog_timeout true) self in
        let self := set_error true (MsgWatchdogTimeout time_since_last) self in
        if negb (keep_values_on_timeout self) then
          let self := set_last_data (zero_bytes (data_size self)) self in
          let self := with_stats (set_first_packet_received false) self in
          (self, [_last_data self])
        else (self, [])
      else (self, []).

(** *** [_receive_loop] *)

(** [socket.recvfrom_into(recv_buffer)]: the datagram, cut to the length of
    the buffer, overwrites the front of the buffer; the rest of the buffer
    keeps what earlier datagrams left there. *)
Definition recvfrom_into (recv_buffer datagram : list byte) : list byte * nat :=
  let num_bytes := length (take (length recv_buffer) datagram) in
  (take num_bytes datagram ++ drop num_bytes recv_buffer, num_bytes).

(** The part of the loop body that follows a successful [recvfrom_into]. *)
Definition on_datagram (self : NetfluxReceiver) (recv_buffer : list byte)
           (num_bytes : nat) (now : float) : NetfluxReceiver * list (list byte) :=
  if (num_bytes <? 2 + data_size self)%nat then
    (count_rejected self, [])
  else
    let recv_seq_number := byte_at recv_buffer 0 in
    let feedback_seq_number := byte_at recv_buffer 1 in
    let self := set_partner_seq_number recv_seq_number self in
    if negb (recv_seq_number =? _previous_recv_seq_number self) then
      if _is_new_packet self recv_seq_number then
        let self := with_stats (set_first_packet_received true) self in
        let self := with_stats (set_last_valid_packet_time now) self in
        let self :=
          with_stats (fun s => set_total_packets_received (total_packets_received s + 1) s)
                     self in
        let self := set_current_feedback_seq_number feedback_seq_number self in
        let data_payload := take (data_size self) (drop 2 recv_buffer) in
        let self := set_last_data data_payload self in
        let self := set_previous_recv_seq_number recv_seq_number self in
        let self := set_error false MsgEmpty self in
        (self, [data_payload])
      else
        (count_rejected self, [])
    else
      (self, []).

(** What can happen in one iteration of [while self._running]. *)
Inductive Event : Type :=
| SocketTimeout (now : float)               (* recvfrom_into raised socket.timeout *)
| Datagram (d : list byte) (now : float)    (* recvfrom_into returned *)
| SocketError (e : string)                  (* recvfrom_into raised anything else *)
| Stop.                                     (* stop() cleared _running *)

(** The loop state: the object and the local [recv_buffer]. *)
Definition LoopState : Type := NetfluxReceiver * list byte.

Definition _receive_loop_body (st : LoopState) (ev : Event)
  : LoopState * list (list byte) :=
  let '(self, recv_buffer) := st in
  match ev with
  | SocketTimeout now =>
      let '(self, calls) := _check_watchdog self now in
      ((self, recv_buffer), calls)
  | Datagram d now =>
      let '(recv_buffer, num_bytes) := recvfrom_into recv_buffer d in
      let '(self, calls) := on_datagram self recv_buffer num_bytes now in
      ((self, recv_buffer), calls)
  | SocketError e =>
      if _running self then ((set_error true (MsgReceiveError e) self, recv_buffer), [])
      else ((self, recv_buffer), [])
  | Stop => ((set_running false self, recv_buffer), [])
  end.

Fixpoint _receive_loop (st : LoopState) (evs : list Event)
  : LoopState * list (list byte) :=
  match evs with
  | [] => (st, [])
  | ev :: evs =>
      if _running (fst st) then
        let '(st, calls) := _receive_loop_body st ev in
        let '(st, calls') := _receive_loop st evs in
        (st, calls ++ calls')
      else (st, [])
  end.

(** [recv_buffer = bytearray(1460)] *)
Definition fresh_recv_buffer : list byte := zero_bytes 1460.

(** *** Notions used in the statements *)

(** [isFresh candidate previous]: the answer of [_is_new_packet] for
    [candidate] when [previous] is the last accepted sequence number. *)
Definition isFresh (self : NetfluxReceiver) (candidate previous : Z) : bool :=
  _is_new_packet (set_previous_recv_seq_number previous self) candidate.

(** How the loop body treats a datagram, given the buffer and byte count
    that [recvfrom_into] returned. *)
Inductive Verdict : Type := Undersized | Duplicate | Stale | Fresh.

Definition verdict (self : NetfluxReceiver) (recv_buffer : list byte) (num_bytes : nat)
  : Verdict :=
  if (num_bytes <? 2 + data_size self)%nat then Undersized
  else if byte_at recv_buffer 0 =? _previous_recv_seq_number self then Duplicate
  else if _is_new_packet self (byte_at recv_buffer 0) then Fresh
  else Stale.

(** The watchdog fires: a packet was accepted, the feedback byte has not
    moved since the previous check and more than [watch_interval] has
    passed since the last evidence of liveness. *)
Definition watchdog_fires (self : NetfluxReceiver) (now : float) : bool :=
  first_packet_received (stats self)
  && (current_feedback_seq_number self =? _previous_feedback_seq_number self)
  && PrimFloat.ltb (watch_interval self) (now - last_valid_packet_time (stats self))%float.

(** A receiver for one-byte payloads with a watchdog of one second that
    clears its data on timeout, in the state it has after accepting the
    datagram [0a 03 2a] at time 1. *)
Definition accepted_ten : NetfluxReceiver :=
  {| data_size := 1;
     watch_interval := 1%float;
     keep_values_on_timeout := false;
     _running := true;
     _previous_recv_seq_number := 10;
     _previous_feedback_seq_number := 0;
     partner_seq_number := 10;
     current_feedback_seq_number := 3;
     error := false;
     error_message := MsgEmpty;
     stats := mkStats true 1%float false 1 0;
     _last_data := [x2a] |}.

(** The verdict on a datagram that arrives when the loop state is
    [(self, recv_buffer)]. *)
Definition datagram_verdict (self : NetfluxReceiver) (recv_buffer d : list byte) : Verdict :=
  verdict self (fst (recvfrom_into recv_buffer d)) (snd (recvfrom_into recv_buffer d)).

(** The object after the loop body has processed the datagram [d]. *)
Definition after_datagram (self : NetfluxReceiver) (recv_buffer d : list byte) (now : float)
  : NetfluxReceiver :=
  fst (fst (_receive_loop_body (self, recv_buffer) (Datagram d now))).

(** The payloads passed to the callback while processing [d]. *)
Definition calls_on_datagram (self : NetfluxReceiver) (recv_buffer d : list byte)
           (now : float) : list (list byte) :=
  snd (_receive_loop_body (self, recv_buffer) (Datagram d now)).

(** A stale datagram, [05 00 00], and an exact duplicate, [0a 09 63], for
    the receiver that last accepted sequence number 10. *)
Definition stale_five : list byte := [x05; x00; x00].
Definition duplicate_ten : list byte := [x0a; x09; x63].

(** *** Accessors and further notions *)

(** [get_last_data] *)
Definition get_last_data (self : NetfluxReceiver) : list byte := _last_data self.

(** [get_stats]: a copy of the statistics. *)
Definition get_stats (self : NetfluxReceiver) : ReceiverStats :=
  mkStats (first_packet_received (stats self)) (last_valid_packet_time (stats self))
          (watchdog_timeout (stats self)) (total_packets_received (stats self))
          (total_packets_rejected (stats self)).

(** The object and the callback payloads of one watchdog poll. *)
Definition after_timeout (self : NetfluxReceiver) (now : float) : NetfluxReceiver :=
  fst (_check_watchdog self now).

Definition calls_on_timeout (self : NetfluxReceiver) (now : float) : list (list byte) :=
  snd (_check_watchdog self now).

(** The payload bytes of a datagram for a receiver of [size] payload bytes. *)
Definition payload_of (size : nat) (d : list byte) : list byte := take size (drop 2 d).

(** The number of datagrams among the events. *)
Fixpoint datagrams (evs : list Event) : nat :=
  match evs with
  | [] => 0
  | Datagram _ _ :: evs => S (datagrams evs)
  | _ :: evs => datagrams evs
  end.

(** A sequence number that fits the header byte. *)
Definition is_seq (v : Z) : Prop := 0 <= v < 256.

(** What every state of a started receiver satisfies: the stored payload
    has the configured size and the sequence numbers fit a byte. *)
Definition consistent (self : NetfluxReceiver) : Prop :=
  length (_last_data self) = data_size self
  /\ is_seq (partner_seq_number self)
  /\ is_seq (_previous_recv_seq_number self)
  /\ is_seq (current_feedback_seq_number self).

End Receiver.

(** ** Sender ([netflux_sender.py]) *)

Module Sender.

(** The exceptions that reach a handler of the sender. *)
Inductive Exn : Type :=
| ValueErrorRange                          (* "byte must be in range(0, 256)" *)
| ValueErrorSize (returned expected : nat)
    (* f"Data provider returned {len(data)} bytes, expected {self.data_size}" *)
| Other (e : string).                      (* raised by the provider or the socket *)

(** [error_message] of the sender. *)
Inductive ErrorMessage : Type :=
| MsgEmpty                                 (* "" *)
| MsgDataProvider (e : Exn)                (* f"Data provider error: {e}" *)
| MsgSocketSend (e : Exn)                  (* f"Socket send error: {e}" *)
| MsgSend (e : Exn).                       (* f"Send error: {e}" *)

Record SenderStats : Type := mkStats {
  total_packets_sent : Z;
  total_send_errors : Z;
  last_send_time : float
}.

Record NetfluxSender : Type := mkSender {
  data_size : nat;
  send_interval : float;
  _running : bool;
  sequence_number : Z;
  partner_seq_number : Z;
  error : bool;
  error_message : ErrorMessage;
  stats : SenderStats;
  _send_buffer : list byte
}.

(** [NetfluxSender.__init__] *)
Definition init (size : nat) (interval : float) : NetfluxSender :=
  {| data_size := size;
     send_interval := interval;
     _running := false;
     sequence_number := 0;
     partner_seq_number := 0;
     error := false;
     error_message := MsgEmpty;
     stats := mkStats 0 0 0%float;
     _send_buffer := zero_bytes (2 + size) |}.

(** *** Attribute assignments *)

Definition set_running (v : bool) (s : NetfluxSender) : NetfluxSender :=
  mkSender (data_size s) (send_interval s) v (sequence_number s)
           (partner_seq_number s) (error s) (error_message s) (stats s) (_send_buffer s).

Definition set_sequence_number (v : Z) (s : NetfluxSender) : NetfluxSender :=
  mkSender (data_size s) (send_interval s) (_running s) v
           (partner_seq_number s) (error s) (error_message s) (stats s) (_send_buffer s).

(** [set_partner_seq_number(seq_num)], a public method. *)
Definition set_partner_seq_number (seq_num : Z) (s : NetfluxSender) : NetfluxSender :=
  mkSender (data_size s) (send_interval s) (_running s) (sequence_number s)
           seq_num (error s) (error_message s) (stats s) (_send_buffer s).

Definition set_error (v : bool) (m : ErrorMessage) (s : NetfluxSender) : NetfluxSender :=
  mkSender (data_size s) (send_interval s) (_running s) (sequence_number s)
           (partner_seq_number s) v m (stats s) (_send_buffer s).

Definition with_stats (f : SenderStats -> SenderStats) (s : NetfluxSender) : NetfluxSender :=
  mkSender (data_size s) (send_interval s) (_running s) (sequence_number s)
           (partner_seq_number s) (error s) (error_message s) (f (stats s)) (_send_buffer s).

Definition set_send_buffer (v : list byte) (s : NetfluxSender) : NetfluxSender :=
  mkSender (data_size s) (send_interval s) (_running s) (sequence_number s)
           (partner_seq_number s) (error s) (error_message s) (stats s) v.

(** [self.stats.total_send_errors += 1] *)
Definition count_send_error (s : NetfluxSender) : NetfluxSender :=
  with_stats (fun st => mkStats (total_packets_sent st) (total_send_errors st + 1)
                                (last_send_time st)) s.

(** [self.stats.total_packets_sent += 1; self.stats.last_send_time = now] *)
Definition count_sent (now : float) (s : NetfluxSender) : NetfluxSender :=
  with_stats (fun st => mkStats (total_packets_sent st + 1) (total_send_errors st) now) s.

(** [start()], when the socket is there. *)
Definition start (self : NetfluxSender) : NetfluxSender := set_running true self.

Definition started (size : nat) (interval : float) : NetfluxSender :=
  start (init size interval).

(** [buf[i] = v] on a [bytearray]: [ValueError] when [v] is not in
    [range(256)].  The sender stores at the indices 0 and 1 of a buffer of
    [2 + data_size] bytes, so the index is in range. *)
Definition bytearray_setitem (buf : list byte) (i : nat) (v : Z) : Exn + list byte :=
  match byte_of_int v with
  | Some b => inr (<[i:=b]> buf)
  | None => inl ValueErrorRange
  end.

(** [buf[2:2 + n] = data] on a [bytearray]. *)
Definition bytearray_setslice (buf : list byte) (n : nat) (data : list byte) : list byte :=
  take 2 buf ++ data ++ drop (2 + n) buf.

(** What the environment does during one call of [_send_packet]. *)
Record SendEnv : Type := mkSendEnv {
  provider : Exn + list byte;     (* self.data_provider() raises or returns bytes *)
  sendto : option Exn;            (* self._socket.sendto raises or returns *)
  send_time : float               (* time.time() after a successful sendto *)
}.

(** The result of a call: the object, the datagrams put on the wire and the
    exception that left the method, if any. *)
Definition Outcome : Type := NetfluxSender * list (list byte) * option Exn.

(** *** [_send_packet] *)
Definition _send_packet (self : NetfluxSender) (env : SendEnv) : Outcome :=
  let self := set_sequence_number (Z.land (sequence_number self + 1) 0xFF) self in
  match bytearray_setitem (_send_buffer self) 0 (sequence_number self) with
  | inl e => (self, [], Some e)
  | inr buf =>
      let self := set_send_buffer buf self in
      match bytearray_setitem (_send_buffer self) 1 (partner_seq_number self) with
      | inl e => (self, [], Some e)
      | inr buf =>
          let self := set_send_buffer buf self in
          let got :=
            match provider env with
            | inl e => inl e
            | inr data =>
                if negb (length data =? data_size self)%nat
                then inl (ValueErrorSize (length data) (data_size self))
                else inr data
            end in
          match got with
          | inl e => (set_error true (MsgDataProvider e) self, [], None)
          | inr data =>
              let self :=
                set_send_buffer (bytearray_setslice (_send_buffer self) (data_size self) data)
                                self in
              match sendto env with
              | None =>
                  let self := count_sent (send_time env) self in
                  (set_error false MsgEmpty self, [_send_buffer self], None)
              | Some e =>
                  let self := set_error true (MsgSocketSend e) self in
                  (count_send_error self, [], None)
              end
          end
      end
  end.

(** *** [_send_loop] *)

(** What can happen in one iteration of [while self._running]: the clock
    is read and [_send_packet] may be called, or [stop()] has cleared the
    flag, or [set_partner_seq_number] was called from another thread. *)
Inductive Event : Type :=
| Tick (current_time : float) (env : SendEnv)
| SetPartner (seq_num : Z)
| Stop.

(** The loop state: the object and the local [next_send_time]. *)
Definition LoopState : Type := NetfluxSender * float.

Definition _send_loop_body (st : LoopState) (ev : Event) : LoopState * list (list byte) :=
  let '(self, next_send_time) := st in
  match ev with
  | Tick current_time env =>
      if PrimFloat.leb next_send_time current_time then
        match _send_packet self env with
        | (self, sent, None) =>
            ((self, (current_time + send_interval self)%float), sent)
        | (self, sent, Some e) =>
            let self := set_error true (MsgSend e) self in
            ((count_send_error self, next_send_time), sent)
        end
      else (st, [])
  | SetPartner seq_num => ((set_partner_seq_number seq_num self, next_send_time), [])
  | Stop => ((set_running false self, next_send_time), [])
  end.

Fixpoint _send_loop (st : LoopState) (evs : list Event) : LoopState * list (list byte) :=
  match evs with
  | [] => (st, [])
  | ev :: evs =>
      if _running (fst st) then
        let '(st, sent) := _send_loop_body st ev in
        let '(st, sent') := _send_loop st evs in
        (st, sent ++ sent')
      else (st, [])
  end.

(** The thread as started: [next_send_time = time.time()]. *)
Definition run (size : nat) (interval : float) (start_time : float) (evs : list Event)
  : LoopState * list (list byte) :=
  _send_loop (started size interval, start_time) evs.

(** *** Notions used in the statements *)

(** The object, the local [next_send_time] and the datagrams put on the
    wire by one iteration of the loop. *)
Definition after_event (st : LoopState) (ev : Event) : NetfluxSender :=
  fst (fst (_send_loop_body st ev)).

Definition deadline_after (st : LoopState) (ev : Event) : float :=
  snd (fst (_send_loop_body st ev)).

Definition sent_by (st : LoopState) (ev : Event) : list (list byte) :=
  snd (_send_loop_body st ev).

(** A provider that returns the one-byte payload [2a], one that returns
    two bytes, and a socket that accepts the datagram at [now]. *)
Definition good_env (now : float) : SendEnv := mkSendEnv (inr [x2a]) None now.
Definition long_env (now : float) : SendEnv := mkSendEnv (inr [x2a; x2b]) None now.

(** A sender with interval 0.5 whose deadline was 1 and which wakes up at
    time 2. *)
Definition late_state : LoopState := (started 1 0.5%float, 1%float).
Definition late_tick : Event := Tick 2%float (good_env 2%float).

(** The sequence number carried by the first datagram of a run. *)
Definition first_sequence_number (sent : list (list byte)) : option Z :=
  (fun d => byte_at d 0) <$> head sent.

(** *** Accessors and further notions *)

(** [get_stats]: a copy of the statistics. *)
Definition get_stats (self : NetfluxSender) : SenderStats :=
  mkStats (total_packets_sent (stats self)) (total_send_errors (stats self))
          (last_send_time (stats self)).

(** Successive calls of [_send_packet], one per environment. *)
Definition send_packets (self : NetfluxSender) (envs : list SendEnv) : NetfluxSender :=
  foldl (fun self env => fst (fst (_send_packet self env))) self envs.

(** What every state of a started sender satisfies. *)
Definition consistent (self : NetfluxSender) : Prop :=
  length (_send_buffer self) = (2 + data_size self)%nat
  /\ 0 <= sequence_number self < 256.

End Sender.

(** ** Statistics ([netflux_statistics.py]) *)

Module Statistics.

Record NetfluxStatistics : Type := mkStatistics {
  avg_partner_interval : float;
  avg_own_interval : float;
  last_rtt : float;
  total_partner_lost_packets : Z;
  total_feedback_lost_packets : Z
}.

Record NetfluxStatisticsTracker : Type := mkTracker {
  cycle_time_ms : float;
  stats : NetfluxStatistics;
  _own_cycle_counter : float;
  _prev_send_seq_number : Z;
  _partner_cycle_counter : float;
  _prev_recv_seq_number : Z;
  _prev_feedback_seq_number : Z;
  _rtt_counter : float;
  _rtt_tracked_seq_num : Z;
  _last_update_time : float
}.

(** [NetfluxStatisticsTracker.__init__]; [now] is the reading of
    [time.time()]. *)
Definition init (cycle : float) (now : float) : NetfluxStatisticsTracker :=
  {| cycle_time_ms := cycle;
     stats := mkStatistics 0%float 0%float 0%float 0 0;
     _own_cycle_counter := 0%float;
     _prev_send_seq_number := 0;
     _partner_cycle_counter := 0%float;
     _prev_recv_seq_number := 0;
     _prev_feedback_seq_number := 0;
     _rtt_counter := 0%float;
     _rtt_tracked_seq_num := 0;
     _last_update_time := now |}.

(** *** Attribute assignments *)

Definition set_avg_partner_interval (v : float) (s : NetfluxStatistics) : NetfluxStatistics :=
  mkStatistics v (avg_own_interval s) (last_rtt s)
               (total_partner_lost_packets s) (total_feedback_lost_packets s).

Definition set_avg_own_interval (v : float) (s : NetfluxStatistics) : NetfluxStatistics :=
  mkStatistics (avg_partner_interval s) v (last_rtt s)
               (total_partner_lost_packets s) (total_feedback_lost_packets s).

Definition set_last_rtt (v : float) (s : NetfluxStatistics) : NetfluxStatistics :=
  mkStatistics (avg_partner_interval s) (avg_own_interval s) v
               (total_partner_lost_packets s) (total_feedback_lost_packets s).

Definition set_total_partner_lost_packets (v : Z) (s : NetfluxStatistics)
  : NetfluxStatistics :=
  mkStatistics (avg_partner_interval s) (avg_own_interval s) (last_rtt s)
               v (total_feedback_lost_packets s).

Definition set_total_feedback_lost_packets (v : Z) (s : NetfluxStatistics)
  : NetfluxStatistics :=
  mkStatistics (avg_partner_interval s) (avg_own_interval s) (last_rtt s)
               (total_partner_lost_packets s) v.

Definition with_stats (f : NetfluxStatistics -> NetfluxStatistics)
           (t : NetfluxStatisticsTracker) : NetfluxStatisticsTracker :=
  mkTracker (cycle_time_ms t) (f (stats t)) (_own_cycle_counter t)
            (_prev_send_seq_number t) (_partner_cycle_counter t)
            (_prev_recv_seq_number t) (_prev_feedback_seq_number t)
            (_rtt_counter t) (_rtt_tracked_seq_num t) (_last_update_time t).

Definition set_own_cycle_counter (v : float) (t : NetfluxStatisticsTracker)
  : NetfluxStatisticsTracker :=
  mkTracker (cycle_time_ms t) (stats t) v
            (_prev_send_seq_number t) (_partner_cycle_counter t)
            (_prev_recv_seq_number t) (_prev_feedback_seq_number t)
            (_rtt_counter t) (_rtt_tracked_seq_num t) (_last_update_time t).

Definition set_prev_send_seq_number (v : Z) (t : NetfluxStatisticsTracker)
  : NetfluxStatisticsTracker :=
  mkTracker (cycle_time_ms t) (stats t) (_own_cycle_counter t)
            v (_partner_cycle_counter t)
            (_prev_recv_seq_number t) (_prev_feedback_seq_number t)
            (_rtt_counter t) (_rtt_tracked_seq_num t) (_last_update_time t).

Definition set_partner_cycle_counter (v : float) (t : NetfluxStatisticsTracker)
  : NetfluxStatisticsTracker :=
  mkTracker (cycle_time_ms t) (stats t) (_own_cycle_counter t)
            (_prev_send_seq_number t) v
            (_prev_recv_seq_number t) (_prev_feedback_seq_number t)
            (_rtt_counter t) (_rtt_tracked_seq_num t) (_last_update_time t).

Definition set_prev_recv_seq_number (v : Z) (t : NetfluxStatisticsTracker)
  : NetfluxStatisticsTracker :=
  mkTracker (cycle_time_ms t) (stats t) (_own_cycle_counter t)
            (_prev_send_seq_number t) (_partner_cycle_counter t)
            v (_prev_feedback_seq_number t)
            (_rtt_counter t) (_rtt_tracked_seq_num t) (_last_update_time t).

Definition set_prev_feedback_seq_number (v : Z) (t : NetfluxStatisticsTracker)
  : NetfluxStatisticsTracker :=
  mkTracker (cycle_time_ms t) (stats t) (_own_cycle_counter t)
            (_prev_send_seq_number t) (_partner_cycle_counter t)
            (_prev_recv_seq_number t) v
            (_rtt_counter t) (_rtt_tracked_seq_num t) (_last_update_time t).

Definition set_rtt_counter (v : float) (t : NetfluxStatisticsTracker)
  : NetfluxStatisticsTracker :=
  mkTracker (cycle_time_ms t) (stats t) (_own_cycle_counter t)
            (_prev_send_seq_number t) (_partner_cycle_counter t)
            (_prev_recv_seq_number t) (_prev_feedback_seq_number t)
            v (_rtt_tracked_seq_num t) (_last_update_time t).

Definition set_rtt_tracked_seq_num (v : Z) (t : NetfluxStatisticsTracker)
  : NetfluxStatisticsTracker :=
  mkTracker (cycle_time_ms t) (stats t) (_own_cycle_counter t)
            (_prev_send_seq_number t) (_partner_cycle_counter t)
            (_prev_recv_seq_number t) (_prev_feedback_seq_number t)
            (_rtt_counter t) v (_last_update_time t).

Definition set_last_update_time (v : float) (t : NetfluxStatisticsTracker)
  : NetfluxStatisticsTracker :=
  mkTracker (cycle_time_ms t) (stats t) (_own_cycle_counter t)
            (_prev_send_seq_number t) (_partner_cycle_counter t)
            (_prev_recv_seq_number t) (_prev_feedback_seq_number t)
            (_rtt_counter t) (_rtt_tracked_seq_num t) v.

(** *** [_update_own_interval] *)
Definition _update_own_interval (self : NetfluxStatisticsTracker)
           (send_seq_number : Z) (elapsed_ms : float) : NetfluxStatisticsTracker :=
  let self :=
    if (0 <=? send_seq_number) && (send_seq_number <? 3) then
      if 250 <? _prev_send_seq_number self then
        let self :=
          if PrimFloat.ltb 0 (_own_cycle_counter self) then
            with_stats
              (set_avg_own_interval
                 (_own_cycle_counter self / 256 - 2 * cycle_time_ms self)%float) self
          else self in
        set_own_cycle_counter 0%float self
      else self
    else self in
  let self := set_own_cycle_counter (_own_cycle_counter self + elapsed_ms)%float self in
  set_prev_send_seq_number send_seq_number self.

(** *** [_update_partner_interval] *)
Definition _update_partner_interval (self : NetfluxStatisticsTracker)
           (recv_seq_number : Z) (elapsed_ms : float) : NetfluxStatisticsTracker :=
  let self :=
    if (0 <=? recv_seq_number) && (recv_seq_number <? 5) then
      if 250 <? _prev_recv_seq_number self then
        let self :=
          if PrimFloat.ltb 0 (_partner_cycle_counter self) then
            with_stats
              (set_avg_partner_interval
                 (_partner_cycle_counter self / 256 - 2 * cycle_time_ms self)%float) self
          else self in
        set_partner_cycle_counter 0%float self
      else self
    else self in
  let self :=
    set_partner_cycle_counter (_partner_cycle_counter self + elapsed_ms)%float self in
  set_prev_recv_seq_number recv_seq_number self.

(** *** [_update_packet_loss] *)
Definition _update_packet_loss (self : NetfluxStatisticsTracker)
           (recv_seq_number feedback_seq_number : Z) : NetfluxStatisticsTracker :=
  let recv_diff := Z.land (recv_seq_number - _prev_recv_seq_number self) 0xFF in
  let self :=
    if (1 <? recv_diff) && (recv_diff <? 128) then
      let lost_packets := recv_diff - 1 in
      with_stats (fun s => set_total_partner_lost_packets
                             (total_partner_lost_packets s + lost_packets) s) self
    else self in
  let self :=
    if (0 <=? recv_seq_number) && (recv_seq_number <? 5) then
      if 250 <? _prev_recv_seq_number self then
        with_stats (set_total_partner_lost_packets 0) self
      else self
    else self in
  let feedback_diff :=
    Z.land (feedback_seq_number - _prev_feedback_seq_number self) 0xFF in
  let self :=
    if (1 <? feedback_diff) && (feedback_diff <? 128) then
      let lost_acks := feedback_diff - 1 in
      with_stats (fun s => set_total_feedback_lost_packets
                             (total_feedback_lost_packets s + lost_acks) s) self
    else self in
  let self :=
    if (0 <=? feedback_seq_number) && (feedback_seq_number <? 15) then
      if 240 <? _prev_feedback_seq_number self then
        with_stats (set_total_feedback_lost_packets 0) self
      else self
    else self in
  set_prev_feedback_seq_number feedback_seq_number self.

(** *** [_update_rtt] *)
Definition _update_rtt (self : NetfluxStatisticsTracker)
           (send_seq_number feedback_seq_number : Z) (elapsed_ms : float)
  : NetfluxStatisticsTracker :=
  if _rtt_tracked_seq_num self =? 0 then
    if negb (send_seq_number =? _prev_send_seq_number self) then
      let self := set_rtt_tracked_seq_num send_seq_number self in
      set_rtt_counter 0%float self
    else self
  else
    let self := set_rtt_counter (_rtt_counter self + elapsed_ms)%float self in
    if _rtt_tracked_seq_num self =? feedback_seq_number then
      let self := with_stats (set_last_rtt (_rtt_counter self)) self in
      set_rtt_tracked_seq_num 0 self
    else self.

(** *** [update]

    [current_time] is the reading of [time.time()]. *)
Definition update (self : NetfluxStatisticsTracker)
           (recv_seq_number send_seq_number feedback_seq_number : Z)
           (current_time : float) : NetfluxStatisticsTracker :=
  let elapsed_ms := ((current_time - _last_update_time self) * 1000)%float in
  let self := set_last_update_time current_time self in
  let self := _update_own_interval self send_seq_number elapsed_ms in
  let self := _update_partner_interval self recv_seq_number elapsed_ms in
  let self := _update_packet_loss self recv_seq_number feedback_seq_number in
  _update_rtt self send_seq_number feedback_seq_number elapsed_ms.

(** One call of [update] per tick. *)
Record Tick : Type := mkTick {
  recv_seq : Z;
  send_seq : Z;
  feedback_seq : Z;
  at_time : float
}.

Definition updates (self : NetfluxStatisticsTracker) (ticks : list Tick)
  : NetfluxStatisticsTracker :=
  foldl (fun self k => update self (recv_seq k) (send_seq k) (feedback_seq k) (at_time k))
        self ticks.

(** [get_stats]: a copy of the statistics. *)
Definition get_stats (self : NetfluxStatisticsTracker) : NetfluxStatistics :=
  mkStatistics (avg_partner_interval (stats self)) (avg_own_interval (stats self))
               (last_rtt (stats self)) (total_partner_lost_packets (stats self))
               (total_feedback_lost_packets (stats self)).

(** *** [reset]

    [now] is the reading of [time.time()].  The previous sequence numbers
    are not among the attributes that [reset] assigns. *)
Definition reset (self : NetfluxStatisticsTracker) (now : float) : NetfluxStatisticsTracker :=
  let self := with_stats (fun _ => mkStatistics 0%float 0%float 0%float 0 0) self in
  let self := set_own_cycle_counter 0%float self in
  let self := set_partner_cycle_counter 0%float self in
  let self := set_rtt_counter 0%float self in
  let self := set_rtt_tracked_seq_num 0 self in
  set_last_update_time now self.

(** The wrap of the feedback stream as [_update_packet_loss] detects it. *)
Definition feedback_wrapped (self : NetfluxStatisticsTracker) (feedback_seq_number : Z) : bool :=
  (0 <=? feedback_seq_number) && (feedback_seq_number <? 15)
  && (240 <? _prev_feedback_seq_number self).

(** The wrap of the own stream as [_update_own_interval] detects it, and
    of the partner stream as [_update_partner_interval] detects it. *)
Definition own_wrapped (self : NetfluxStatisticsTracker) (send_seq_number : Z) : bool :=
  (0 <=? send_seq_number) && (send_seq_number <? 3) && (250 <? _prev_send_seq_number self).

Definition partner_wrapped (self : NetfluxStatisticsTracker) (recv_seq_number : Z) : bool :=
  (0 <=? recv_seq_number) && (recv_seq_number <? 5) && (250 <? _prev_recv_seq_number self).

(** The time between two calls of [update], as [update] computes it. *)
Definition elapsed_ms (self : NetfluxStatisticsTracker) (current_time : float) : float :=
  ((current_time - _last_update_time self) * 1000)%float.

(** *** Scenarios used in the statements *)

#[local] Set Warnings "-inexact-float".

(** A tracker created at time 0 for a cycle of 10 ms and called every
    10 ms. *)
Definition tracker : NetfluxStatisticsTracker := init 10 0.

(** Partner sequence numbers 10, 11, 15, 16, one per call. *)
Definition loss_ticks : list Tick :=
  [mkTick 10 1 0 0.01; mkTick 11 2 1 0.02; mkTick 15 3 2 0.03; mkTick 16 4 3 0.04].

(** Own sequence numbers 5, 6, 6, 6 and feedback 4, 4, 4, 6. *)
Definition rtt_ticks : list Tick :=
  [mkTick 0 5 4 0.01; mkTick 0 6 4 0.02; mkTick 0 6 4 0.03; mkTick 0 6 6 0.04].

End Statistics.

(** ** Orchestrator ([netflux_main.py]) *)

Module Main.

(** [NetfluxData.get_size()] *)
Definition data_size : nat := 20.

(** The components of [NetfluxMain] together with the locals of the two
    loops that run inside the components. *)
Record NetfluxMain : Type := mkMain {
  receiver : Receiver.NetfluxReceiver;
  recv_buffer : list byte;
  sender : Sender.NetfluxSender;
  next_send_time : float;
  statistics : Statistics.NetfluxStatisticsTracker;
  _running : bool
}.

(** [NetfluxMain.__init__] and [_init_components]; [now] is the reading of
    [time.time()] in the constructor of the tracker.  The locals of the
    loops get their values in [start]; [next_send_time] is a placeholder
    until then. *)
Definition init (send_interval watch_interval : float) (keep_values_on_timeout : bool)
           (now : float) : NetfluxMain :=
  {| receiver := Receiver.init data_size watch_interval keep_values_on_timeout;
     recv_buffer := Receiver.fresh_recv_buffer;
     sender := Sender.init data_size send_interval;
     next_send_time := 0%float;
     statistics := Statistics.init (send_interval * 1000)%float now;
     _running := false |}.

(** [start()], when both components start; [now] is the reading of
    [time.time()] at the top of [_send_loop]. *)
Definition start (self : NetfluxMain) (now : float) : NetfluxMain :=
  {| receiver := Receiver.start (receiver self);
     recv_buffer := recv_buffer self;
     sender := Sender.start (sender self);
     next_send_time := now;
     statistics := statistics self;
     _running := true |}.

(** The body of [_statistics_loop]; [now] is the reading of [time.time()]
    in [update]. *)
Definition _statistics_loop_body (self : NetfluxMain) (now : float) : NetfluxMain :=
  {| receiver := receiver self;
     recv_buffer := recv_buffer self;
     sender :=
       Sender.set_partner_seq_number (Receiver.partner_seq_number (receiver self))
                                     (sender self);
     next_send_time := next_send_time self;
     statistics :=
       Statistics.update (statistics self)
                         (Receiver.partner_seq_number (receiver self))
                         (Sender.sequence_number (sender self))
                         (Receiver.current_feedback_seq_number (receiver self))
                         now;
     _running := _running self |}.

(** One iteration of one of the three loops. *)
Inductive Event : Type :=
| ReceiveIteration (ev : Receiver.Event)
| SendIteration (current_time : float) (env : Sender.SendEnv)
| StatisticsIteration (now : float).

(** The effect of an iteration on the application, with the payloads passed
    to the data callback and the datagrams put on the wire. *)
Definition step (self : NetfluxMain) (ev : Event)
  : NetfluxMain * list (list byte) * list (list byte) :=
  match ev with
  | ReceiveIteration ev =>
      if Receiver._running (receiver self) then
        let '((r, buf), calls) :=
          Receiver._receive_loop_body (receiver self, recv_buffer self) ev in
        (mkMain r buf (sender self) (next_send_time self) (statistics self) (_running self),
         calls, [])
      else (self, [], [])
  | SendIteration current_time env =>
      if Sender._running (sender self) then
        let '((s, next), sent) :=
          Sender._send_loop_body (sender self, next_send_time self)
                                 (Sender.Tick current_time env) in
        (mkMain (receiver self) (recv_buffer self) s next (statistics self) (_running self),
         [], sent)
      else (self, [], [])
  | StatisticsIteration now =>
      if _running self then (_statistics_loop_body self now, [], [])
      else (self, [], [])
  end.

Fixpoint steps (self : NetfluxMain) (evs : list Event)
  : NetfluxMain * list (list byte) * list (list byte) :=
  match evs with
  | [] => (self, [], [])
  | ev :: evs =>
      let '(self, calls, sent) := step self ev in
      let '(self, calls', sent') := steps self evs in
      (self, calls ++ calls', sent ++ sent')
  end.

(** The application object, the callback payloads and the datagrams sent. *)
Definition app (r : NetfluxMain * list (list byte) * list (list byte)) : NetfluxMain :=
  fst (fst r).

Definition delivered (r : NetfluxMain * list (list byte) * list (list byte))
  : list (list byte) := snd (fst r).

Definition transmitted (r : NetfluxMain * list (list byte) * list (list byte))
  : list (list byte) := snd r.

(** What every state of a started application satisfies: both components
    are consistent and configured for [data_size], the partner sequence
    number held by the sender fits a byte, and the sender has recorded no
    exception from [_send_packet]. *)
Definition linked (self : NetfluxMain) : Prop :=
  Receiver.consistent (receiver self)
  /\ Sender.consistent (sender self)
  /\ 0 <= Sender.partner_seq_number (sender self) < 256
  /\ Receiver.data_size (receiver self) = data_size
  /\ Sender.data_size (sender self) = data_size
  /\ (forall e, Sender.error_message (sender self) <> Sender.MsgSend e).

(** An application started at time 0 with a send interval of half a
    second, a datagram of full length that carries sequence number 5, and a
    provider that returns 20 zero bytes. *)
Definition example_app : NetfluxMain := start (init 0.5 1 false 0) 0.
Definition example_datagram : list byte := x05 :: x00 :: zero_bytes data_size.
Definition example_env : Sender.SendEnv := Sender.mkSendEnv (inr (zero_bytes data_size)) None 1.

End Main.

(** * Properties *)

(** ** Sequence arithmetic *)

Lemma land_0xFF (x : Z) : Z.land x 0xFF = x mod 256.
Proof. exact (Z.land_ones x 8 ltac:(lia)). Qed.

Lemma land_0xFF_range (x : Z) : 0 <= Z.land x 0xFF < 256.
Proof. rewrite land_0xFF. apply Z.mod_pos_bound. lia. Qed.

(** The circular distances from [a] to [b] and from [b] to [a] add up to a
    full turn, unless both are zero. *)
Lemma circular_opposite (a b : Z) :
  (a - b) mod 256 <> 0 -> (b - a) mod 256 = 256 - (a - b) mod 256.
Proof.
  intros Hne.
  pose proof (Z.mod_pos_bound (a - b) 256 ltac:(lia)) as Hab.
  pose proof (Z.div_mod (a - b) 256 ltac:(lia)) as Hdm.
  symmetry. apply (Z.mod_unique_pos _ _ (- ((a - b) / 256) - 1)); lia.
Qed.

Lemma circular_zero (a b : Z) :
  0 <= a < 256 -> 0 <= b < 256 -> (a - b) mod 256 = 0 -> a = b.
Proof.
  intros Ha Hb H0.
  apply Z.mod_divide in H0; [| lia].
  destruct H0 as [k Hk]. lia.
Qed.

Lemma int_of_byte_range (b : byte) : 0 <= int_of_byte b < 256.
Proof.
  unfold int_of_byte. pose proof (Byte.to_N_bounded b) as Hb. lia.
Qed.

Lemma byte_at_range (buf : list byte) (i : nat) : 0 <= byte_at buf i < 256.
Proof.
  unfold byte_at. destruct (buf !! i); [apply int_of_byte_range | lia].
Qed.

Lemma byte_of_int_land (x : Z) : is_Some (byte_of_int (Z.land x 0xFF)).
Proof.
  pose proof (land_0xFF_range x) as Hr. unfold byte_of_int.
  replace ((0 <=? Z.land x 0xFF) && (Z.land x 0xFF <? 256)) with true
    by (symmetry; apply andb_true_iff; split; [apply Z.leb_le | apply Z.ltb_lt]; lia).
  destruct (Byte.of_N (Z.to_N (Z.land x 0xFF))) eqn:E; [eauto |].
  apply Byte.of_N_None_iff in E. lia.
Qed.

Lemma int_of_byte_of_int (v : Z) (b : byte) : byte_of_int v = Some b -> int_of_byte b = v.
Proof.
  unfold byte_of_int, int_of_byte.
  destruct ((0 <=? v) && (v <? 256)) eqn:Hr; [| discriminate].
  apply andb_true_iff in Hr as [H0 _]. apply Z.leb_le in H0.
  intros E. apply Byte.to_of_N in E. rewrite E. lia.
Qed.

(** ** Receiver *)

Module ReceiverSpec.
Import Receiver.

Example accepted_ten_reached :
  fst (fst (_receive_loop (started 1 1%float false, fresh_recv_buffer)
                          [Datagram [x0a; x03; x2a] 1%float]))
  = accepted_ten.
Proof. vm_compute. reflexivity. Qed.

Lemma on_datagram_not_fresh self recv_buffer num_bytes now :
  verdict self recv_buffer num_bytes <> Fresh ->
  on_datagram self recv_buffer num_bytes now =
    (match verdict self recv_buffer num_bytes with
     | Undersized => count_rejected self
     | Duplicate => set_partner_seq_number (byte_at recv_buffer 0) self
     | _ => count_rejected (set_partner_seq_number (byte_at recv_buffer 0) self)
     end, []).
Proof.
  intros Hv. unfold on_datagram. unfold verdict in *.
  destruct (num_bytes <? 2 + data_size self)%nat; [reflexivity |].
  cbv zeta.
  change (_previous_recv_seq_number (set_partner_seq_number (byte_at recv_buffer 0) self))
    with (_previous_recv_seq_number self).
  change (_is_new_packet (set_partner_seq_number (byte_at recv_buffer 0) self))
    with (_is_new_packet self).
  destruct (byte_at recv_buffer 0 =? _previous_recv_seq_number self); [reflexivity |].
  cbn [negb].
  destruct (_is_new_packet self (byte_at recv_buffer 0)); [congruence | reflexivity].
Qed.

Lemma body_datagram self recv_buffer d now :
  _receive_loop_body (self, recv_buffer) (Datagram d now) =
    let buf := fst (recvfrom_into recv_buffer d) in
    let n := snd (recvfrom_into recv_buffer d) in
    ((fst (on_datagram self buf n now), buf), snd (on_datagram self buf n now)).
Proof.
  unfold _receive_loop_body. destruct (recvfrom_into recv_buffer d) as [buf n].
  cbn. destruct (on_datagram self buf n now). reflexivity.
Qed.

Lemma recvfrom_into_num_bytes recv_buffer d :
  (snd (recvfrom_into recv_buffer d) <= length d)%nat.
Proof. unfold recvfrom_into. cbn. rewrite length_take. lia. Qed.

(** The local buffer keeps its length, so indexing it at 0 and 1 is
    always in range. *)
Lemma recvfrom_into_length recv_buffer d :
  length (fst (recvfrom_into recv_buffer d)) = length recv_buffer.
Proof.
  unfold recvfrom_into. cbn.
  rewrite length_app, !length_take, length_drop. lia.
Qed.

(** The header bytes read from the buffer are those of the datagram. *)
Lemma recvfrom_into_header recv_buffer d (i : nat) :
  (i < snd (recvfrom_into recv_buffer d))%nat ->
  fst (recvfrom_into recv_buffer d) !! i = d !! i.
Proof.
  unfold recvfrom_into. cbn. rewrite !length_take. intros Hi.
  rewrite lookup_app_l by (rewrite length_take; lia).
  apply lookup_take_lt. lia.
Qed.

Lemma recvfrom_into_byte_at recv_buffer d (i : nat) :
  (i < snd (recvfrom_into recv_buffer d))%nat ->
  byte_at (fst (recvfrom_into recv_buffer d)) i = byte_at d i.
Proof. intros Hi. unfold byte_at. rewrite recvfrom_into_header by exact Hi. reflexivity. Qed.

Lemma not_undersized_header self recv_buffer d :
  datagram_verdict self recv_buffer d <> Undersized ->
  byte_at (fst (recvfrom_into recv_buffer d)) 0 = byte_at d 0.
Proof.
  unfold datagram_verdict, verdict. intros Hv.
  destruct (snd (recvfrom_into recv_buffer d) <? 2 + data_size self)%nat eqn:Hn;
    [congruence |].
  apply Nat.ltb_ge in Hn. apply recvfrom_into_byte_at. lia.
Qed.

Lemma short_datagram_undersized self recv_buffer d :
  (length d < 2 + data_size self)%nat ->
  datagram_verdict self recv_buffer d = Undersized.
Proof.
  intros Hlen. unfold datagram_verdict, verdict.
  pose proof (recvfrom_into_num_bytes recv_buffer d) as Hn.
  replace (snd (recvfrom_into recv_buffer d) <? 2 + data_size self)%nat with true;
    [reflexivity |].
  symmetry. apply Nat.ltb_lt. lia.
Qed.

Lemma after_rejected self recv_buffer d now :
  datagram_verdict self recv_buffer d <> Fresh ->
  after_datagram self recv_buffer d now =
    match datagram_verdict self recv_buffer d with
    | Undersized => count_rejected self
    | Duplicate => set_partner_seq_number (byte_at d 0) self
    | _ => count_rejected (set_partner_seq_number (byte_at d 0) self)
    end
  /\ calls_on_datagram self recv_buffer d now = [].
Proof.
  intros Hv. unfold after_datagram, calls_on_datagram. rewrite body_datagram. cbn [fst snd].
  rewrite on_datagram_not_fresh by exact Hv. cbn [fst snd].
  fold (datagram_verdict self recv_buffer d).
  split; [| reflexivity].
  destruct (datagram_verdict self recv_buffer d) eqn:E; try reflexivity;
    rewrite (not_undersized_header self) by congruence; reflexivity.
Qed.

(** *** Freshness is antisymmetric but not total *)

Lemma isFresh_mod self a b :
  first_packet_received (stats self) = true ->
  isFresh self a b = (1 <=? (a - b) mod 256) && ((a - b) mod 256 <? 128).
Proof.
  intros Hfirst. unfold isFresh, _is_new_packet. cbn [stats set_previous_recv_seq_number
    _previous_recv_seq_number]. rewrite Hfirst. cbn [negb]. rewrite land_0xFF. reflexivity.
Qed.

(** Forward progress across the wrap is fresh, the way back is not, and a
    sequence number is not fresh with respect to itself. *)
Example isFresh_across_wrap :
  isFresh accepted_ten 2 255 = true /\ isFresh accepted_ten 255 2 = false
  /\ isFresh accepted_ten 7 7 = false.
Proof. vm_compute. repeat split. Qed.

(** C2 (counterexample): 0 and 128 are distinct and neither is fresh with
    respect to the other. *)
Lemma antipodal_pair_neither_fresh :
  let self := accepted_ten in
  first_packet_received (stats self) = true
  /\ 0 <> 128
  /\ isFresh self 0 128 = false
  /\ isFresh self 128 0 = false.
Proof. vm_compute. repeat split; congruence. Qed.

(** C2 (amended): after a first packet has been accepted, for distinct
    sequence numbers [a], [b] in [0,255] the two are never mutually fresh,
    and exactly one of [isFresh a b], [isFresh b a] holds exactly when the
    circular distance [(a - b) mod 256] is not 128; at distance 128 neither
    is fresh. *)
Theorem isFresh_antisymmetric self a b :
  first_packet_received (stats self) = true ->
  0 <= a < 256 -> 0 <= b < 256 -> a <> b ->
  isFresh self a b && isFresh self b a = false
  /\ xorb (isFresh self a b) (isFresh self b a) = negb ((a - b) mod 256 =? 128).
Proof.
  intros Hfirst Ha Hb Hab.
  rewrite !isFresh_mod by exact Hfirst.
  assert (Hne : (a - b) mod 256 <> 0) by (intros H0; apply Hab; apply circular_zero; assumption).
  rewrite (circular_opposite a b Hne).
  pose proof (Z.mod_pos_bound (a - b) 256 ltac:(lia)) as Hr.
  set (k := (a - b) mod 256) in *.
  destruct (Z.leb_spec 1 k), (Z.ltb_spec k 128), (Z.leb_spec 1 (256 - k)),
    (Z.ltb_spec (256 - k) 128), (Z.eqb_spec k 128); cbn; try lia; auto.
Qed.

Lemma isFresh_antisymmetric_witness :
  let self := accepted_ten in
  first_packet_received (stats self) = true /\ 0 <= 2 < 256 /\ 0 <= 255 < 256 /\ 2 <> 255
  /\ isFresh self 2 255 && isFresh self 255 2 = false
  /\ xorb (isFresh self 2 255) (isFresh self 255 2) = negb ((2 - 255) mod 256 =? 128).
Proof.
  assert (H1 : first_packet_received (stats accepted_ten) = true) by reflexivity.
  assert (H2 : 0 <= 2 < 256) by lia.
  assert (H3 : 0 <= 255 < 256) by lia.
  assert (H4 : 2 <> 255) by lia.
  do 4 (split; [assumption |]).
  exact (isFresh_antisymmetric accepted_ten 2 255 H1 H2 H3 H4).
Defined.

(** *** Rejected datagrams *)

(** C1 (counterexample): a stale datagram changes [partner_seq_number]. *)
Lemma stale_datagram_overwrites_partner_seq :
  let self := accepted_ten in
  let recv_buffer := fresh_recv_buffer in
  datagram_verdict self recv_buffer stale_five = Stale
  /\ partner_seq_number self = 10
  /\ partner_seq_number (after_datagram self recv_buffer stale_five 2%float) = 5.
Proof. vm_compute. repeat split. Qed.

(** C1 (amended): the last accepted sequence number,
    [_previous_recv_seq_number], only changes when a packet passes
    freshness validation: an undersized, exact-duplicate or stale datagram
    leaves it as it was.  [partner_seq_number] is left as it was by an
    undersized datagram only; a duplicate or stale datagram of full length
    overwrites it with the datagram's first byte. *)
Theorem rejected_datagram_sequence_state self recv_buffer d now :
  datagram_verdict self recv_buffer d <> Fresh ->
  _previous_recv_seq_number (after_datagram self recv_buffer d now)
    = _previous_recv_seq_number self
  /\ partner_seq_number (after_datagram self recv_buffer d now)
      = match datagram_verdict self recv_buffer d with
        | Undersized => partner_seq_number self
        | _ => byte_at d 0
        end.
Proof.
  intros Hv. destruct (after_rejected self recv_buffer d now Hv) as [-> _].
  destruct (datagram_verdict self recv_buffer d); split; reflexivity.
Qed.

Lemma rejected_datagram_sequence_state_witness :
  let self := accepted_ten in
  let recv_buffer := fresh_recv_buffer in
  datagram_verdict self recv_buffer stale_five <> Fresh
  /\ _previous_recv_seq_number (after_datagram self recv_buffer stale_five 2%float) = 10
  /\ partner_seq_number (after_datagram self recv_buffer stale_five 2%float) = 5.
Proof.
  assert (Hv : datagram_verdict accepted_ten fresh_recv_buffer stale_five <> Fresh)
    by (vm_compute; congruence).
  split; [exact Hv |].
  exact (rejected_datagram_sequence_state accepted_ten fresh_recv_buffer
           stale_five 2%float Hv).
Defined.

(** C7 (counterexample): an exact duplicate processed after an accepted
    packet does not increase [total_packets_rejected]. *)
Lemma duplicate_datagram_not_counted :
  let self := accepted_ten in
  let recv_buffer := fresh_recv_buffer in
  let self' := after_datagram self recv_buffer duplicate_ten 2%float in
  first_packet_received (stats self) = true
  /\ datagram_verdict self recv_buffer duplicate_ten = Duplicate
  /\ total_packets_rejected (stats self) = 0
  /\ total_packets_rejected (stats self') = 0
  /\ total_packets_rejected (stats self') <> total_packets_rejected (stats self) + 1.
Proof. vm_compute. repeat split; congruence. Qed.

(** C7 (amended): an undersized datagram and a stale or reordered packet
    each increase [total_packets_rejected] by one; an exact duplicate
    (candidate sequence equal to the last accepted one) is dropped without
    being counted.  None of the three changes the error flag or the error
    message, counts as received or reaches the callback. *)
Theorem rejection_counting self recv_buffer d now :
  datagram_verdict self recv_buffer d <> Fresh ->
  total_packets_rejected (stats (after_datagram self recv_buffer d now))
    = total_packets_rejected (stats self)
      + match datagram_verdict self recv_buffer d with Duplicate => 0 | _ => 1 end
  /\ error (after_datagram self recv_buffer d now) = error self
  /\ error_message (after_datagram self recv_buffer d now) = error_message self
  /\ total_packets_received (stats (after_datagram self recv_buffer d now))
      = total_packets_received (stats self)
  /\ calls_on_datagram self recv_buffer d now = [].
Proof.
  intros Hv. destruct (after_rejected self recv_buffer d now Hv) as [-> ->].
  destruct (datagram_verdict self recv_buffer d); cbn; repeat split; lia.
Qed.

Lemma rejection_counting_witness :
  let self := accepted_ten in
  let recv_buffer := fresh_recv_buffer in
  let self' := after_datagram self recv_buffer stale_five 2%float in
  datagram_verdict self recv_buffer stale_five <> Fresh
  /\ total_packets_rejected (stats self') = 0 + 1
  /\ error self' = false
  /\ error_message self' = MsgEmpty
  /\ total_packets_received (stats self') = 1
  /\ calls_on_datagram self recv_buffer stale_five 2%float = [].
Proof.
  assert (Hv : datagram_verdict accepted_ten fresh_recv_buffer stale_five <> Fresh)
    by (vm_compute; congruence).
  split; [exact Hv |].
  exact (rejection_counting accepted_ten fresh_recv_buffer stale_five 2%float Hv).
Defined.

(** C10: a datagram shorter than [2 + data_size] bytes increases
    [total_packets_rejected] by one and nothing is extracted from it:
    [partner_seq_number], [current_feedback_seq_number], the stored
    payload and [total_packets_received] are unchanged and the callback is
    not called. *)
Theorem undersized_datagram_only_counted self recv_buffer d now :
  (length d < 2 + data_size self)%nat ->
  total_packets_rejected (stats (after_datagram self recv_buffer d now))
    = total_packets_rejected (stats self) + 1
  /\ partner_seq_number (after_datagram self recv_buffer d now) = partner_seq_number self
  /\ current_feedback_seq_number (after_datagram self recv_buffer d now)
      = current_feedback_seq_number self
  /\ _last_data (after_datagram self recv_buffer d now) = _last_data self
  /\ total_packets_received (stats (after_datagram self recv_buffer d now))
      = total_packets_received (stats self)
  /\ calls_on_datagram self recv_buffer d now = [].
Proof.
  intros Hlen.
  pose proof (short_datagram_undersized self recv_buffer d Hlen) as Hu.
  assert (Hv : datagram_verdict self recv_buffer d <> Fresh) by congruence.
  destruct (after_rejected self recv_buffer d now Hv) as [-> ->].
  rewrite Hu. repeat split.
Qed.

(** A one-byte datagram sent to a receiver configured for 20 bytes of
    payload. *)
Lemma undersized_datagram_only_counted_witness :
  let self := started 20 1%float false in
  let self' := after_datagram self fresh_recv_buffer [x07] 1%float in
  (length [x07] < 2 + data_size self)%nat
  /\ total_packets_rejected (stats self') = total_packets_rejected (stats self) + 1
  /\ partner_seq_number self' = partner_seq_number self
  /\ current_feedback_seq_number self' = current_feedback_seq_number self
  /\ _last_data self' = _last_data self
  /\ total_packets_received (stats self') = total_packets_received (stats self)
  /\ calls_on_datagram self fresh_recv_buffer [x07] 1%float = [].
Proof.
  assert (Hlen : (length [x07] < 2 + data_size (started 20 1%float false))%nat)
    by (cbn; lia).
  split; [exact Hlen |].
  exact (undersized_datagram_only_counted (started 20 1%float false) fresh_recv_buffer
           [x07] 1%float Hlen).
Defined.

(** *** Watchdog *)

Lemma zero_bytes_all_zero (n : nat) : Forall (eq x00) (zero_bytes n).
Proof. unfold zero_bytes. induction n; cbn; constructor; auto. Qed.

Lemma check_watchdog_fires self now :
  watchdog_fires self now = true ->
  _check_watchdog self now =
    let timed_out :=
      set_error true
        (MsgWatchdogTimeout (now - last_valid_packet_time (stats self))%float)
        (with_stats (set_watchdog_timeout true) self) in
    if keep_values_on_timeout self then (timed_out, [])
    else (with_stats (set_first_packet_received false)
            (set_last_data (zero_bytes (data_size self)) timed_out),
          [zero_bytes (data_size self)]).
Proof.
  unfold watchdog_fires, _check_watchdog. intros Hfires.
  apply andb_true_iff in Hfires as [Hfires Hlate].
  apply andb_true_iff in Hfires as [Hfirst Hsame].
  rewrite Hfirst, Hsame. cbn [negb]. cbv zeta. rewrite Hlate.
  cbn [keep_values_on_timeout set_error with_stats].
  destruct (keep_values_on_timeout self); reflexivity.
Qed.

(** C6: when the watchdog fires, [watchdog_timeout] is set; with
    [keep_values_on_timeout = False] the stored payload becomes
    [data_size] zero bytes, with [keep_values_on_timeout = True] the
    stored payload is the one from before the timeout. *)
Theorem watchdog_timeout_payload self recv_buffer now :
  watchdog_fires self now = true ->
  let self' := fst (fst (_receive_loop_body (self, recv_buffer) (SocketTimeout now))) in
  watchdog_timeout (stats self') = true
  /\ error self' = true
  /\ if keep_values_on_timeout self
     then _last_data self' = _last_data self
     else _last_data self' = zero_bytes (data_size self)
          /\ Forall (eq x00) (_last_data self')
          /\ length (_last_data self') = data_size self.
Proof.
  intros Hfires. unfold _receive_loop_body.
  rewrite (check_watchdog_fires self now Hfires). cbv zeta.
  destruct (keep_values_on_timeout self); cbn; repeat split.
  - apply zero_bytes_all_zero.
  - unfold zero_bytes. apply length_replicate.
Qed.

(** The receiver that accepted its last packet at time 1 is polled at
    time 5 with a watchdog of one second. *)
Lemma watchdog_timeout_payload_witness :
  let self := set_previous_feedback_seq_number 3 accepted_ten in
  let self' :=
    fst (fst (_receive_loop_body (self, fresh_recv_buffer) (SocketTimeout 5%float))) in
  watchdog_fires self 5%float = true
  /\ watchdog_timeout (stats self') = true
  /\ error self' = true
  /\ _last_data self' = zero_bytes 1
  /\ Forall (eq x00) (_last_data self')
  /\ length (_last_data self') = 1%nat.
Proof.
  assert (Hfires : watchdog_fires (set_previous_feedback_seq_number 3 accepted_ten) 5%float
                   = true) by reflexivity.
  split; [exact Hfires |].
  exact (watchdog_timeout_payload (set_previous_feedback_seq_number 3 accepted_ten)
           fresh_recv_buffer 5%float Hfires).
Defined.

(** The same poll with [keep_values_on_timeout = True]. *)
Example watchdog_keeps_values :
  let self :=
    mkReceiver 1 1%float true true 10 3 10 3 false MsgEmpty (mkStats true 1%float false 1 0)
               [x2a] in
  let self' :=
    fst (fst (_receive_loop_body (self, fresh_recv_buffer) (SocketTimeout 5%float))) in
  watchdog_fires self 5%float = true
  /\ watchdog_timeout (stats self') = true
  /\ _last_data self' = [x2a].
Proof. vm_compute. repeat split. Qed.

(** *** Accepted datagrams *)

Lemma recvfrom_into_payload recv_buffer d (size : nat) :
  (2 + size <= snd (recvfrom_into recv_buffer d))%nat ->
  take size (drop 2 (fst (recvfrom_into recv_buffer d))) = payload_of size d.
Proof.
  unfold recvfrom_into, payload_of. cbn [fst snd].
  set (n := length (take (length recv_buffer) d)). intros Hn.
  assert (Hnd : (n <= length d)%nat) by (unfold n; rewrite length_take; lia).
  assert (Hlen : length (take n d) = n) by (rewrite length_take; lia).
  rewrite drop_app_le by lia.
  rewrite take_app_le by (rewrite length_drop; lia).
  replace n with (2 + (n - 2))%nat by lia.
  rewrite <- take_drop_commute, take_take.
  f_equal. lia.
Qed.

Lemma payload_of_length (size : nat) d :
  (2 + size <= length d)%nat -> length (payload_of size d) = size.
Proof. intros Hd. unfold payload_of. rewrite length_take, length_drop. lia. Qed.

Lemma fresh_not_undersized self recv_buffer d :
  datagram_verdict self recv_buffer d = Fresh ->
  (2 + data_size self <= snd (recvfrom_into recv_buffer d))%nat.
Proof.
  unfold datagram_verdict, verdict.
  destruct (snd (recvfrom_into recv_buffer d) <? 2 + data_size self)%nat eqn:Hn;
    [discriminate |].
  intros _. apply Nat.ltb_ge in Hn. exact Hn.
Qed.

Lemma on_datagram_fresh self recv_buffer num_bytes now :
  verdict self recv_buffer num_bytes = Fresh ->
  on_datagram self recv_buffer num_bytes now =
    (mkReceiver (data_size self) (watch_interval self) (keep_values_on_timeout self)
                (_running self) (byte_at recv_buffer 0) (_previous_feedback_seq_number self)
                (byte_at recv_buffer 0) (byte_at recv_buffer 1) false MsgEmpty
                (mkStats true now (watchdog_timeout (stats self))
                         (total_packets_received (stats self) + 1)
                         (total_packets_rejected (stats self)))
                (take (data_size self) (drop 2 recv_buffer)),
     [take (data_size self) (drop 2 recv_buffer)]).
Proof.
  unfold verdict, on_datagram.
  destruct (num_bytes <? 2 + data_size self)%nat; [discriminate |].
  cbv zeta.
  change (_previous_recv_seq_number (set_partner_seq_number (byte_at recv_buffer 0) self))
    with (_previous_recv_seq_number self).
  change (_is_new_packet (set_partner_seq_number (byte_at recv_buffer 0) self))
    with (_is_new_packet self).
  destruct (byte_at recv_buffer 0 =? _previous_recv_seq_number self); [discriminate |].
  cbn [negb].
  destruct (_is_new_packet self (byte_at recv_buffer 0)); [| discriminate].
  intros _. reflexivity.
Qed.

Lemma after_accepted self recv_buffer d now :
  datagram_verdict self recv_buffer d = Fresh ->
  after_datagram self recv_buffer d now =
    mkReceiver (data_size self) (watch_interval self) (keep_values_on_timeout self)
               (_running self) (byte_at d 0) (_previous_feedback_seq_number self)
               (byte_at d 0) (byte_at d 1) false MsgEmpty
               (mkStats true now (watchdog_timeout (stats self))
                        (total_packets_received (stats self) + 1)
                        (total_packets_rejected (stats self)))
               (payload_of (data_size self) d)
  /\ calls_on_datagram self recv_buffer d now = [payload_of (data_size self) d].
Proof.
  intros Hv. pose proof (fresh_not_undersized _ _ _ Hv) as Hn.
  unfold after_datagram, calls_on_datagram. rewrite body_datagram. cbn [fst snd].
  rewrite on_datagram_fresh by exact Hv. cbn [fst snd].
  rewrite recvfrom_into_payload by exact Hn.
  rewrite !recvfrom_into_byte_at by lia.
  split; reflexivity.
Qed.

(** A datagram that follows the last accepted one, for the receiver that
    last accepted sequence number 10. *)
Example eleven_is_fresh :
  datagram_verdict accepted_ten fresh_recv_buffer [x0b; x04; x2b; xff] = Fresh.
Proof. vm_compute. reflexivity. Qed.

(** X1: a datagram that passes the checks is accepted as a whole: both
    sequence numbers become its first byte, the feedback its second byte,
    the stored payload the [data_size] bytes after the header (what follows
    them is ignored), the packet is counted as received, the time is
    recorded, the error is cleared and the callback gets the payload
    once. *)
Theorem fresh_datagram_accepted self recv_buffer d now :
  datagram_verdict self recv_buffer d = Fresh ->
  let self' := after_datagram self recv_buffer d now in
  partner_seq_number self' = byte_at d 0
  /\ _previous_recv_seq_number self' = byte_at d 0
  /\ current_feedback_seq_number self' = byte_at d 1
  /\ get_last_data self' = payload_of (data_size self) d
  /\ length (get_last_data self') = data_size self
  /\ calls_on_datagram self recv_buffer d now = [payload_of (data_size self) d]
  /\ total_packets_received (get_stats self') = total_packets_received (stats self) + 1
  /\ total_packets_rejected (get_stats self') = total_packets_rejected (stats self)
  /\ first_packet_received (get_stats self') = true
  /\ last_valid_packet_time (get_stats self') = now
  /\ error self' = false
  /\ error_message self' = MsgEmpty.
Proof.
  intros Hv self'. unfold self'.
  destruct (after_accepted self recv_buffer d now Hv) as [-> ->].
  pose proof (fresh_not_undersized _ _ _ Hv) as Hn.
  pose proof (recvfrom_into_num_bytes recv_buffer d) as Hd.
  cbn. repeat split. apply payload_of_length. lia.
Qed.

Lemma fresh_datagram_accepted_witness :
  let self' := after_datagram accepted_ten fresh_recv_buffer [x0b; x04; x2b; xff] 2%float in
  datagram_verdict accepted_ten fresh_recv_buffer [x0b; x04; x2b; xff] = Fresh
  /\ partner_seq_number self' = 11
  /\ _previous_recv_seq_number self' = 11
  /\ current_feedback_seq_number self' = 4
  /\ get_last_data self' = [x2b]
  /\ length (get_last_data self') = 1%nat
  /\ calls_on_datagram accepted_ten fresh_recv_buffer [x0b; x04; x2b; xff] 2%float = [[x2b]]
  /\ total_packets_received (get_stats self') = 1 + 1
  /\ total_packets_rejected (get_stats self') = 0
  /\ first_packet_received (get_stats self') = true
  /\ last_valid_packet_time (get_stats self') = 2%float
  /\ error self' = false
  /\ error_message self' = MsgEmpty.
Proof.
  split; [exact eleven_is_fresh |].
  exact (fresh_datagram_accepted accepted_ten fresh_recv_buffer [x0b; x04; x2b; xff] 2%float
           eleven_is_fresh).
Defined.

(** X2: the acceptance window.  Once a packet has been accepted, a
    candidate [k] steps ahead of the last accepted sequence number (modulo
    256) is new exactly when [k] is between 1 and 127: up to 126 packets
    may be lost in a row, and the wrap from 255 to 0 is an ordinary step. *)
Theorem acceptance_window self previous k :
  first_packet_received (stats self) = true ->
  0 <= k < 256 ->
  isFresh self ((previous + k) mod 256) previous = (1 <=? k) && (k <? 128).
Proof.
  intros Hfirst Hk. rewrite isFresh_mod by exact Hfirst.
  replace (((previous + k) mod 256 - previous) mod 256) with k; [reflexivity |].
  rewrite Zminus_mod_idemp_l. replace (previous + k - previous) with k by lia.
  symmetry. apply Z.mod_small. exact Hk.
Qed.

Lemma acceptance_window_witness :
  first_packet_received (stats accepted_ten) = true
  /\ 0 <= 3 < 256
  /\ isFresh accepted_ten ((255 + 3) mod 256) 255 = (1 <=? 3) && (3 <? 128).
Proof.
  assert (H1 : first_packet_received (stats accepted_ten) = true) by reflexivity.
  assert (H2 : 0 <= 3 < 256) by lia.
  do 2 (split; [assumption |]).
  exact (acceptance_window accepted_ten 255 3 H1 H2).
Defined.

(** The verdicts that are possible while no packet has been accepted. *)
Lemma verdict_before_first_packet self recv_buffer d :
  first_packet_received (stats self) = false ->
  datagram_verdict self recv_buffer d = Undersized
  \/ datagram_verdict self recv_buffer d = Duplicate
      /\ byte_at d 0 = _previous_recv_seq_number self
  \/ datagram_verdict self recv_buffer d = Fresh
      /\ byte_at d 0 <> _previous_recv_seq_number self.
Proof.
  intros Hfirst.
  destruct (datagram_verdict self recv_buffer d) eqn:Hv; [auto | | exfalso |];
    pose proof (not_undersized_header self recv_buffer d ltac:(congruence)) as Hhead;
    revert Hv; unfold datagram_verdict, verdict, _is_new_packet; rewrite Hfirst, Hhead;
    cbn [negb];
    destruct (snd (recvfrom_into recv_buffer d) <? 2 + data_size self)%nat; try discriminate;
    destruct (Z.eqb_spec (byte_at d 0) (_previous_recv_seq_number self)); try discriminate;
    intros _; auto.
Qed.

(** X3: before the first accepted packet, and again after the watchdog has
    cleared the data, no datagram is treated as stale: one of full length
    is accepted whatever its distance from [_previous_recv_seq_number], and
    dropped without being counted only if it carries exactly that number
    (0 on a new receiver). *)
Theorem no_stale_before_first_packet self recv_buffer d :
  first_packet_received (stats self) = false ->
  datagram_verdict self recv_buffer d = Undersized
  \/ datagram_verdict self recv_buffer d = Duplicate
      /\ byte_at d 0 = _previous_recv_seq_number self
  \/ datagram_verdict self recv_buffer d = Fresh
      /\ byte_at d 0 <> _previous_recv_seq_number self.
Proof. exact (verdict_before_first_packet self recv_buffer d). Qed.

Lemma no_stale_before_first_packet_witness :
  first_packet_received (stats (started 1 1%float false)) = false
  /\ (datagram_verdict (started 1 1%float false) fresh_recv_buffer [x00; x00; x2a] = Undersized
      \/ datagram_verdict (started 1 1%float false) fresh_recv_buffer [x00; x00; x2a] = Duplicate
          /\ byte_at [x00; x00; x2a] 0 = _previous_recv_seq_number (started 1 1%float false)
      \/ datagram_verdict (started 1 1%float false) fresh_recv_buffer [x00; x00; x2a] = Fresh
          /\ byte_at [x00; x00; x2a] 0 <> _previous_recv_seq_number (started 1 1%float false)).
Proof.
  assert (H : first_packet_received (stats (started 1 1%float false)) = false) by reflexivity.
  split; [exact H |].
  exact (no_stale_before_first_packet (started 1 1%float false) fresh_recv_buffer
           [x00; x00; x2a] H).
Defined.

(** A new receiver drops a first datagram that carries sequence number 0. *)
Example first_datagram_with_zero_dropped :
  datagram_verdict (started 1 1%float false) fresh_recv_buffer [x00; x00; x2a] = Duplicate
  /\ after_datagram (started 1 1%float false) fresh_recv_buffer [x00; x00; x2a] 1%float
     = started 1 1%float false.
Proof. vm_compute. split; reflexivity. Qed.

(** *** More on the watchdog *)

Ltac watchdog_cases self now :=
  unfold after_timeout, calls_on_timeout, watchdog_fires, _check_watchdog; cbv zeta;
  destruct (first_packet_received (stats self)); cbn [negb andb];
  [ destruct (current_feedback_seq_number self =? _previous_feedback_seq_number self);
    cbn [negb andb];
    [ cbn [stats with_stats set_last_valid_packet_time set_watchdog_timeout
           last_valid_packet_time watch_interval keep_values_on_timeout set_error];
      destruct (PrimFloat.ltb (watch_interval self)
                              (now - last_valid_packet_time (stats self))%float);
      [ destruct (keep_values_on_timeout self); cbn [negb] | ]
    | ]
  | ].

(** The effect of a watchdog poll on the fields it may touch. *)
Lemma check_watchdog_effect self now :
  partner_seq_number (after_timeout self now) = partner_seq_number self
  /\ _previous_recv_seq_number (after_timeout self now) = _previous_recv_seq_number self
  /\ current_feedback_seq_number (after_timeout self now) = current_feedback_seq_number self
  /\ total_packets_received (stats (after_timeout self now))
     = total_packets_received (stats self)
  /\ total_packets_rejected (stats (after_timeout self now))
     = total_packets_rejected (stats self)
  /\ data_size (after_timeout self now) = data_size self
  /\ _running (after_timeout self now) = _running self
  /\ (get_last_data (after_timeout self now), calls_on_timeout self now)
     = if watchdog_fires self now && negb (keep_values_on_timeout self)
       then (zero_bytes (data_size self), [zero_bytes (data_size self)])
       else (get_last_data self, []).
Proof. watchdog_cases self now; repeat split. Qed.


(** X5: a changed feedback byte is the only evidence of liveness the
    watchdog accepts.  It restarts the timer at [now], clears
    [watchdog_timeout] and remembers the feedback byte; it does not clear
    the error flag or the message that an earlier timeout left behind. *)
Theorem feedback_change_restarts_watchdog self now :
  first_packet_received (stats self) = true ->
  current_feedback_seq_number self <> _previous_feedback_seq_number self ->
  last_valid_packet_time (stats (after_timeout self now)) = now
  /\ watchdog_timeout (stats (after_timeout self now)) = false
  /\ _previous_feedback_seq_number (after_timeout self now) = current_feedback_seq_number self
  /\ first_packet_received (stats (after_timeout self now)) = true
  /\ error (after_timeout self now) = error self
  /\ error_message (after_timeout self now) = error_message self.
Proof.
  intros Hfirst Hchanged. apply Z.eqb_neq in Hchanged.
  unfold after_timeout, _check_watchdog. rewrite Hfirst, Hchanged. cbn.
  repeat split. exact Hfirst.
Qed.

(** The receiver whose watchdog fired at time 5 (error set) and which has
    accepted the next packet's feedback since. *)
Lemma feedback_change_restarts_watchdog_witness :
  let self :=
    mkReceiver 1 1%float true true 10 3 10 4 true (MsgWatchdogTimeout 4%float)
               (mkStats true 1%float true 1 0) [x2a] in
  first_packet_received (stats self) = true
  /\ current_feedback_seq_number self <> _previous_feedback_seq_number self
  /\ last_valid_packet_time (stats (after_timeout self 6%float)) = 6%float
  /\ watchdog_timeout (stats (after_timeout self 6%float)) = false
  /\ _previous_feedback_seq_number (after_timeout self 6%float) = 4
  /\ first_packet_received (stats (after_timeout self 6%float)) = true
  /\ error (after_timeout self 6%float) = true
  /\ error_message (after_timeout self 6%float) = MsgWatchdogTimeout 4%float.
Proof.
  set (self := mkReceiver 1 1%float true true 10 3 10 4 true (MsgWatchdogTimeout 4%float)
                          (mkStats true 1%float true 1 0) [x2a]).
  assert (H1 : first_packet_received (stats self) = true) by reflexivity.
  assert (H2 : current_feedback_seq_number self <> _previous_feedback_seq_number self)
    by (cbn; lia).
  do 2 (split; [assumption |]).
  exact (feedback_change_restarts_watchdog self 6%float H1 H2).
Defined.

(** X6: after the watchdog has fired with [keep_values_on_timeout = False]
    the receiver synchronises anew: a datagram is no longer rejected as
    stale, and one that was stale before the timeout is accepted after
    it. *)
Theorem timeout_clears_staleness self recv_buffer d now :
  watchdog_fires self now = true ->
  keep_values_on_timeout self = false ->
  datagram_verdict (after_timeout self now) recv_buffer d <> Stale
  /\ (datagram_verdict self recv_buffer d = Stale ->
      datagram_verdict (after_timeout self now) recv_buffer d = Fresh).
Proof.
  intros Hfires Hkeep. unfold after_timeout.
  rewrite (check_watchdog_fires self now Hfires). cbv zeta. rewrite Hkeep. cbn [fst].
  set (self' := with_stats (set_first_packet_received false) _).
  assert (Hfirst : first_packet_received (stats self') = false) by reflexivity.
  assert (Hprev : _previous_recv_seq_number self' = _previous_recv_seq_number self)
    by reflexivity.
  assert (Hsize : data_size self' = data_size self) by reflexivity.
  destruct (verdict_before_first_packet self' recv_buffer d Hfirst)
    as [Hv | [[Hv Heq] | [Hv Hne]]]; (split; [rewrite Hv; discriminate |]); intros Hstale.
  - exfalso. revert Hv Hstale. unfold datagram_verdict, verdict. rewrite Hsize.
    destruct (_ <? _)%nat; [discriminate |].
    destruct (_ =? _); [discriminate |]. destruct (_is_new_packet self' _); discriminate.
  - exfalso. revert Hstale.
    assert (Hnu : datagram_verdict self' recv_buffer d <> Undersized)
      by (rewrite Hv; discriminate).
    pose proof (not_undersized_header self' recv_buffer d Hnu) as Hhead.
    unfold datagram_verdict, verdict. rewrite Hhead, <- Hprev, Heq, Z.eqb_refl.
    destruct (_ <? _)%nat; discriminate.
  - exact Hv.
Qed.

(** The receiver that last accepted 10 at time 1 has been silent until
    time 5; the datagram [05 00 00] was stale before. *)
Lemma timeout_clears_staleness_witness :
  let self := set_previous_feedback_seq_number 3 accepted_ten in
  watchdog_fires self 5%float = true
  /\ keep_values_on_timeout self = false
  /\ datagram_verdict (after_timeout self 5%float) fresh_recv_buffer stale_five <> Stale
  /\ (datagram_verdict self fresh_recv_buffer stale_five = Stale ->
      datagram_verdict (after_timeout self 5%float) fresh_recv_buffer stale_five = Fresh).
Proof.
  assert (H1 : watchdog_fires (set_previous_feedback_seq_number 3 accepted_ten) 5%float = true)
    by reflexivity.
  assert (H2 : keep_values_on_timeout (set_previous_feedback_seq_number 3 accepted_ten) = false)
    by reflexivity.
  do 2 (split; [assumption |]).
  exact (timeout_clears_staleness (set_previous_feedback_seq_number 3 accepted_ten)
           fresh_recv_buffer stale_five 5%float H1 H2).
Defined.

Example stale_five_accepted_after_timeout :
  datagram_verdict (set_previous_feedback_seq_number 3 accepted_ten) fresh_recv_buffer stale_five
  = Stale
  /\ datagram_verdict (after_timeout (set_previous_feedback_seq_number 3 accepted_ten) 5%float)
                      fresh_recv_buffer stale_five = Fresh.
Proof. vm_compute. split; reflexivity. Qed.

(** *** Runs of the receive loop *)

Lemma zero_bytes_length (n : nat) : length (zero_bytes n) = n.
Proof. unfold zero_bytes. apply length_replicate. Qed.

Lemma datagram_step self recv_buffer d now :
  match datagram_verdict self recv_buffer d with
  | Fresh =>
      after_datagram self recv_buffer d now =
        mkReceiver (data_size self) (watch_interval self) (keep_values_on_timeout self)
                   (_running self) (byte_at d 0) (_previous_feedback_seq_number self)
                   (byte_at d 0) (byte_at d 1) false MsgEmpty
                   (mkStats true now (watchdog_timeout (stats self))
                            (total_packets_received (stats self) + 1)
                            (total_packets_rejected (stats self)))
                   (payload_of (data_size self) d)
      /\ calls_on_datagram self recv_buffer d now = [payload_of (data_size self) d]
      /\ length (payload_of (data_size self) d) = data_size self
  | Undersized =>
      after_datagram self recv_buffer d now = count_rejected self
      /\ calls_on_datagram self recv_buffer d now = []
  | Duplicate =>
      after_datagram self recv_buffer d now = set_partner_seq_number (byte_at d 0) self
      /\ calls_on_datagram self recv_buffer d now = []
  | Stale =>
      after_datagram self recv_buffer d now
      = count_rejected (set_partner_seq_number (byte_at d 0) self)
      /\ calls_on_datagram self recv_buffer d now = []
  end.
Proof.
  destruct (datagram_verdict self recv_buffer d) eqn:Hv.
  1-3: pose proof (after_rejected self recv_buffer d now ltac:(rewrite Hv; discriminate)) as H;
       rewrite Hv in H; exact H.
  destruct (after_accepted self recv_buffer d now Hv) as [H1 H2].
  repeat split; try assumption.
  pose proof (fresh_not_undersized _ _ _ Hv) as Hn.
  pose proof (recvfrom_into_num_bytes recv_buffer d) as Hd.
  apply payload_of_length. lia.
Qed.

(** One iteration keeps the state consistent, the configuration and the
    length of the buffer, and passes only payloads of [data_size] bytes to
    the callback. *)
Lemma body_consistent st ev :
  consistent (fst st) ->
  consistent (fst (fst (_receive_loop_body st ev)))
  /\ data_size (fst (fst (_receive_loop_body st ev))) = data_size (fst st)
  /\ length (snd (fst (_receive_loop_body st ev))) = length (snd st)
  /\ Forall (fun payload => length payload = data_size (fst st)) (snd (_receive_loop_body st ev)).
Proof.
  destruct st as [self recv_buffer]. cbn [fst snd]. intros (Hdata & Hp & Hr & Hf).
  destruct ev as [now | d now | e |].
  - pose proof (check_watchdog_effect self now) as (E1 & E2 & E3 & _ & _ & E6 & _ & E8).
    unfold after_timeout, calls_on_timeout, get_last_data in *.
    unfold _receive_loop_body. destruct (_check_watchdog self now) as [self' calls].
    cbn [fst snd] in *.
    assert (Hl : length (_last_data self') = data_size self
                 /\ Forall (fun payload => length payload = data_size self) calls).
    { destruct (watchdog_fires self now && negb (keep_values_on_timeout self));
        injection E8 as -> ->; split; auto using zero_bytes_length. }
    destruct Hl as [Hl Hc]. unfold consistent. rewrite E1, E2, E3, E6. auto 10.
  - pose proof (datagram_step self recv_buffer d now) as Hstep.
    pose proof (recvfrom_into_length recv_buffer d) as Hbuf.
    pose proof (byte_at_range d 0) as H0. pose proof (byte_at_range d 1) as H1.
    unfold after_datagram, calls_on_datagram in Hstep. rewrite body_datagram in *.
    cbn [fst snd] in *.
    destruct (datagram_verdict self recv_buffer d);
      [ destruct Hstep as [-> ->] | destruct Hstep as [-> ->] | destruct Hstep as [-> ->]
      | destruct Hstep as (-> & -> & Hlen) ];
      unfold consistent, is_seq; cbn; auto 10.
  - unfold _receive_loop_body. destruct (_running self); cbn; unfold consistent; auto 10.
  - cbn. unfold consistent. auto 10.
Qed.

Lemma receive_loop_cons st ev evs :
  _receive_loop st (ev :: evs) =
    if _running (fst st) then
      (fst (_receive_loop (fst (_receive_loop_body st ev)) evs),
       snd (_receive_loop_body st ev) ++ snd (_receive_loop (fst (_receive_loop_body st ev)) evs))
    else (st, []).
Proof.
  cbn [_receive_loop]. destruct (_running (fst st)); [| reflexivity].
  destruct (_receive_loop_body st ev) as [st' calls]. cbn [fst snd].
  destruct (_receive_loop st' evs) as [st'' calls']. reflexivity.
Qed.

(** X7: in every run of the receive loop that starts in a consistent state
    (as a started receiver is), the state stays consistent: the stored
    payload always has [data_size] bytes and the published sequence numbers
    fit a byte; the buffer keeps its length; and every payload handed to
    the callback, data or the zeros of a timeout, has [data_size] bytes. *)
Theorem receive_loop_consistent evs : forall st,
  consistent (fst st) ->
  consistent (fst (fst (_receive_loop st evs)))
  /\ data_size (fst (fst (_receive_loop st evs))) = data_size (fst st)
  /\ length (snd (fst (_receive_loop st evs))) = length (snd st)
  /\ Forall (fun payload => length payload = data_size (fst st)) (snd (_receive_loop st evs)).
Proof.
  induction evs as [| ev evs IH]; intros st Hst.
  - cbn. auto.
  - rewrite receive_loop_cons. destruct (_running (fst st)); [| cbn; auto].
    destruct (body_consistent st ev Hst) as (Hc & Hsize & Hbuf & Hcalls).
    destruct (IH _ Hc) as (Hc' & Hsize' & Hbuf' & Hcalls').
    cbn [fst snd]. repeat split; try congruence; try apply Hc'.
    apply Forall_app. split; [exact Hcalls |].
    rewrite Hsize in Hcalls'. exact Hcalls'.
Qed.

Lemma started_consistent size watch keep : consistent (started size watch keep).
Proof.
  unfold consistent, is_seq. cbn. rewrite zero_bytes_length. repeat split; lia.
Qed.

Lemma receive_loop_consistent_witness :
  let st := (started 1 1%float false, fresh_recv_buffer) in
  let evs := [Datagram [x0a; x03; x2a] 1%float; SocketTimeout 5%float] in
  consistent (fst st)
  /\ consistent (fst (fst (_receive_loop st evs)))
  /\ data_size (fst (fst (_receive_loop st evs))) = data_size (fst st)
  /\ length (snd (fst (_receive_loop st evs))) = length (snd st)
  /\ Forall (fun payload => length payload = data_size (fst st)) (snd (_receive_loop st evs)).
Proof.
  split; [exact (started_consistent 1 1%float false) |].
  exact (receive_loop_consistent [Datagram [x0a; x03; x2a] 1%float; SocketTimeout 5%float]
           (started 1 1%float false, fresh_recv_buffer) (started_consistent 1 1%float false)).
Defined.

Lemma body_accounting st ev :
  let self := fst st in
  let self' := fst (fst (_receive_loop_body st ev)) in
  total_packets_received (stats self) <= total_packets_received (stats self')
  /\ total_packets_rejected (stats self) <= total_packets_rejected (stats self')
  /\ total_packets_received (stats self') + total_packets_rejected (stats self')
     <= total_packets_received (stats self) + total_packets_rejected (stats self)
        + Z.of_nat (datagrams [ev]).
Proof.
  destruct st as [self recv_buffer]. cbn [fst snd].
  destruct ev as [now | d now | e |].
  - pose proof (check_watchdog_effect self now) as (_ & _ & _ & E4 & E5 & _).
    unfold after_timeout in *. unfold _receive_loop_body.
    destruct (_check_watchdog self now) as [self' calls]. cbn [fst snd] in *.
    rewrite E4, E5. cbn. lia.
  - pose proof (datagram_step self recv_buffer d now) as Hstep.
    unfold after_datagram in Hstep.
    destruct (datagram_verdict self recv_buffer d); destruct Hstep as (-> & _); cbn; lia.
  - unfold _receive_loop_body. destruct (_running self); cbn; lia.
  - cbn. lia.
Qed.

(** X8: the two counters never decrease, and together they grow by at most
    one per datagram received: a datagram is counted as received, counted
    as rejected or (an exact duplicate) not counted; timeouts, socket
    errors and [stop()] count nothing. *)
Theorem receive_loop_accounting evs : forall st,
  let self := fst st in
  let self' := fst (fst (_receive_loop st evs)) in
  total_packets_received (stats self) <= total_packets_received (stats self')
  /\ total_packets_rejected (stats self) <= total_packets_rejected (stats self')
  /\ total_packets_received (stats self') + total_packets_rejected (stats self')
     <= total_packets_received (stats self) + total_packets_rejected (stats self)
        + Z.of_nat (datagrams evs).
Proof.
  induction evs as [| ev evs IH]; intros st; cbv zeta.
  - cbn. lia.
  - rewrite receive_loop_cons. destruct (_running (fst st)); [| cbn [fst]; lia].
    cbn [fst].
    pose proof (body_accounting st ev) as Hb. cbv zeta in Hb.
    pose proof (IH (fst (_receive_loop_body st ev))) as Hr. cbv zeta in Hr.
    assert (Hd : Z.of_nat (datagrams (ev :: evs))
                 = Z.of_nat (datagrams [ev]) + Z.of_nat (datagrams evs))
      by (destruct ev; cbn [datagrams]; lia).
    lia.
Qed.


End ReceiverSpec.

(** ** Sender *)

Module SenderSpec.
Import Sender.

Example first_packet :
  run 1 0.5%float 1%float [Tick 1%float (good_env 1%float)]
  = ((mkSender 1 0.5%float true 1 0 false MsgEmpty (mkStats 1 0 1%float) [x01; x00; x2a],
      1.5%float),
     [[x01; x00; x2a]]).
Proof. vm_compute. reflexivity. Qed.

Example wrap_around :
  sequence_number
    (after_event (set_sequence_number 255 (started 1 0.5%float), 1%float)
                 (Tick 1%float (good_env 1%float))) = 0.
Proof. vm_compute. reflexivity. Qed.

(** *** The shape of [_send_packet] *)

Lemma send_packet_sequence_number self env :
  sequence_number (fst (fst (_send_packet self env))) = Z.land (sequence_number self + 1) 0xFF.
Proof.
  unfold _send_packet, bytearray_setitem. cbv zeta.
  cbn [sequence_number set_sequence_number _send_buffer set_send_buffer partner_seq_number
       data_size].
  destruct (byte_of_int (Z.land (sequence_number self + 1) 255)); [| reflexivity].
  destruct (byte_of_int (partner_seq_number self)); [| reflexivity].
  destruct (provider env) as [e | data]; [reflexivity |].
  destruct (negb (length data =? data_size self)%nat); [reflexivity |].
  destruct (sendto env); reflexivity.
Qed.

(** Case analysis along the branches of [_send_packet]. *)
Ltac send_packet_cases self env :=
  unfold _send_packet, bytearray_setitem; cbv zeta;
  cbn [sequence_number set_sequence_number _send_buffer set_send_buffer partner_seq_number
       data_size];
  destruct (byte_of_int (Z.land (sequence_number self + 1) 255)) as [b0 |] eqn:Hb0;
  [ destruct (byte_of_int (partner_seq_number self)) as [b1 |] eqn:Hb1;
    [ destruct (provider env) as [e | data'] eqn:Hprov;
      [ | destruct (negb (length data' =? data_size self)%nat) eqn:Hlen;
          [ | destruct (sendto env) as [e |] eqn:Hsend ] ]
    | ]
  | ].

Lemma send_packet_config self env :
  send_interval (fst (fst (_send_packet self env))) = send_interval self
  /\ _running (fst (fst (_send_packet self env))) = _running self
  /\ data_size (fst (fst (_send_packet self env))) = data_size self.
Proof. send_packet_cases self env; repeat split. Qed.

(** Every datagram that a call puts on the wire starts with the
    incremented sequence number. *)
Lemma send_packet_sent_header self env :
  (0 < length (_send_buffer self))%nat ->
  Forall (fun d => byte_at d 0 = Z.land (sequence_number self + 1) 0xFF)
         (snd (fst (_send_packet self env))).
Proof.
  intros Hbuf. send_packet_cases self env; cbn [fst snd]; try constructor; [| constructor].
  cbn. unfold bytearray_setslice, byte_at.
  rewrite lookup_app_l by (rewrite length_take, !length_insert; lia).
  rewrite lookup_take_lt by lia.
  rewrite list_lookup_insert_ne by lia.
  rewrite list_lookup_insert_eq by lia.
  apply int_of_byte_of_int. exact Hb0.
Qed.

(** A payload of the wrong length: nothing is sent and nothing is counted
    as sent; the error is recorded by [_send_packet] itself, unless the
    header could not be built, in which case the exception leaves the
    method before the provider is called. *)
Lemma send_packet_wrong_length self env data :
  provider env = inr data -> length data <> data_size self ->
  snd (fst (_send_packet self env)) = []
  /\ total_packets_sent (stats (fst (fst (_send_packet self env))))
      = total_packets_sent (stats self)
  /\ match snd (_send_packet self env) with
     | None =>
         error (fst (fst (_send_packet self env))) = true
         /\ error_message (fst (fst (_send_packet self env)))
            = MsgDataProvider (ValueErrorSize (length data) (data_size self))
     | Some e => e = ValueErrorRange /\ byte_of_int (partner_seq_number self) = None
     end.
Proof.
  intros Hdata Hne.
  assert (Hneq : negb (length data =? data_size self)%nat = true)
    by (apply negb_true_iff, Nat.eqb_neq; exact Hne).
  send_packet_cases self env; cbn [fst snd]; try congruence.
  - injection Hdata as <-. repeat split.
  - repeat split.
  - destruct (byte_of_int_land (sequence_number self + 1)) as [b Hb]. congruence.
Qed.

(** *** One iteration of the loop *)

Lemma body_tick self next_send_time current_time env :
  _send_loop_body (self, next_send_time) (Tick current_time env) =
    if PrimFloat.leb next_send_time current_time then
      match snd (_send_packet self env) with
      | None =>
          ((fst (fst (_send_packet self env)), (current_time + send_interval self)%float),
           snd (fst (_send_packet self env)))
      | Some e =>
          ((count_send_error (set_error true (MsgSend e) (fst (fst (_send_packet self env)))),
            next_send_time),
           snd (fst (_send_packet self env)))
      end
    else ((self, next_send_time), []).
Proof.
  unfold _send_loop_body.
  destruct (PrimFloat.leb next_send_time current_time); [| reflexivity].
  destruct (send_packet_config self env) as [Hint _].
  destruct (_send_packet self env) as [[self' sent] [e |]]; cbn [fst snd] in *;
    [reflexivity | rewrite Hint; reflexivity].
Qed.

Lemma body_sends_only_when_due_and_returning st current_time env :
  sent_by st (Tick current_time env) <> [] ->
  PrimFloat.leb (snd st) current_time = true /\ snd (_send_packet (fst st) env) = None.
Proof.
  destruct st as [self next_send_time]. unfold sent_by. rewrite body_tick. cbn [fst snd].
  destruct (PrimFloat.leb next_send_time current_time); [| cbn; congruence].
  intros Hsent. split; [reflexivity |]. revert Hsent.
  send_packet_cases self env; cbn [fst snd]; congruence.
Qed.

(** *** The deadline *)

(** C8 (counterexample): the iteration sends, and the next deadline is
    the time read at the top of the iteration plus the interval, 2.5, not
    the previous deadline plus the interval, 1.5. *)
Lemma deadline_follows_clock :
  sent_by late_state late_tick = [[x01; x00; x2a]]
  /\ deadline_after late_state late_tick = 2.5%float
  /\ (snd late_state + send_interval (fst late_state))%float = 1.5%float
  /\ deadline_after late_state late_tick
     <> (snd late_state + send_interval (fst late_state))%float.
Proof.
  repeat split; try (vm_compute; reflexivity).
  intros Heq. apply (f_equal (fun x => PrimFloat.eqb x 1.5%float)) in Heq.
  vm_compute in Heq. discriminate Heq.
Qed.

(** C8 (amended): for every loop iteration that sends, the next deadline
    equals the time read at the top of that iteration plus
    [send_interval]: [next_send_time' = current_time + send_interval]. *)
Theorem deadline_is_now_plus_interval self next_send_time current_time env :
  sent_by (self, next_send_time) (Tick current_time env) <> [] ->
  deadline_after (self, next_send_time) (Tick current_time env)
  = (current_time + send_interval self)%float.
Proof.
  intros Hsent.
  destruct (body_sends_only_when_due_and_returning _ _ _ Hsent) as [Hdue Hret].
  cbn [fst snd] in Hdue, Hret.
  unfold deadline_after. rewrite body_tick, Hdue, Hret. reflexivity.
Qed.

Lemma deadline_is_now_plus_interval_witness :
  sent_by late_state late_tick <> []
  /\ deadline_after late_state late_tick = (2 + 0.5)%float.
Proof.
  assert (Hsent : sent_by late_state late_tick <> []) by (vm_compute; congruence).
  split; [exact Hsent |].
  exact (deadline_is_now_plus_interval (started 1 0.5%float) 1%float 2%float
           (good_env 2%float) Hsent).
Defined.

(** The deadline also moves to [current_time + send_interval] when the
    transmission is skipped or the socket refuses the datagram; it stays
    where it was only when an exception leaves [_send_packet]. *)
Lemma deadline_after_due_tick self next_send_time current_time env :
  PrimFloat.leb next_send_time current_time = true ->
  deadline_after (self, next_send_time) (Tick current_time env)
  = match snd (_send_packet self env) with
    | None => (current_time + send_interval self)%float
    | Some _ => next_send_time
    end.
Proof.
  intros Hdue. unfold deadline_after. rewrite body_tick, Hdue.
  destruct (snd (_send_packet self env)); reflexivity.
Qed.

(** *** A payload of the wrong length *)

Lemma send_loop_silent_step st ev evs :
  _running (fst st) = true ->
  sent_by st ev = [] ->
  _send_loop st (ev :: evs) = _send_loop (after_event st ev, deadline_after st ev) evs.
Proof.
  unfold sent_by, after_event, deadline_after. intros Hrun Hsent.
  cbn [_send_loop]. rewrite Hrun.
  destruct (_send_loop_body st ev) as [[self' next'] sent]. cbn [fst snd] in *. subst sent.
  destruct (_send_loop (self', next') evs) as [st'' sent']. reflexivity.
Qed.

(** C9: when the data provider returns a payload whose length differs
    from [data_size], nothing is put on the wire in that tick,
    [total_packets_sent] does not increase, the error flag and the error
    message are set, and the loop goes on with the next iteration. *)
Theorem wrong_length_payload_skips_tick self next_send_time current_time env data evs :
  _running self = true ->
  PrimFloat.leb next_send_time current_time = true ->
  provider env = inr data ->
  length data <> data_size self ->
  let st := (self, next_send_time) in
  let ev := Tick current_time env in
  sent_by st ev = []
  /\ total_packets_sent (stats (after_event st ev)) = total_packets_sent (stats self)
  /\ error (after_event st ev) = true
  /\ error_message (after_event st ev) <> MsgEmpty
  /\ _running (after_event st ev) = true
  /\ _send_loop st (ev :: evs) = _send_loop (after_event st ev, deadline_after st ev) evs.
Proof.
  intros Hrun Hdue Hdata Hne st ev.
  destruct (send_packet_wrong_length self env data Hdata Hne) as (Hsent & Hcount & Herr).
  destruct (send_packet_config self env) as (_ & Hrun' & _).
  assert (Hnone : sent_by st ev = []).
  { unfold sent_by, st, ev. rewrite body_tick, Hdue.
    destruct (snd (_send_packet self env)); exact Hsent. }
  split; [exact Hnone |].
  assert (Hrest : _send_loop st (ev :: evs)
                  = _send_loop (after_event st ev, deadline_after st ev) evs)
    by (apply send_loop_silent_step; [exact Hrun | exact Hnone]).
  unfold after_event, st, ev in *. rewrite body_tick, Hdue in *.
  destruct (snd (_send_packet self env)) as [e |]; cbn [fst snd] in *.
  - cbn [error error_message _running stats count_send_error with_stats set_error
         total_packets_sent].
    repeat split; try assumption; congruence.
  - destruct Herr as [Herror Hmsg]. rewrite Hmsg.
    repeat split; try assumption; congruence.
Qed.

(** A provider that returns two bytes to a sender configured for one. *)
Lemma wrong_length_payload_skips_tick_witness :
  let st := (started 1 0.5%float, 1%float) in
  let ev := Tick 1%float (long_env 1%float) in
  _running (started 1 0.5%float) = true
  /\ PrimFloat.leb 1%float 1%float = true
  /\ provider (long_env 1%float) = inr [x2a; x2b]
  /\ length [x2a; x2b] <> data_size (started 1 0.5%float)
  /\ sent_by st ev = []
  /\ total_packets_sent (stats (after_event st ev)) = 0
  /\ error (after_event st ev) = true
  /\ error_message (after_event st ev) <> MsgEmpty
  /\ _running (after_event st ev) = true
  /\ _send_loop st [ev] = _send_loop (after_event st ev, deadline_after st ev) [].
Proof.
  assert (H1 : _running (started 1 0.5%float) = true) by reflexivity.
  assert (H2 : PrimFloat.leb 1%float 1%float = true) by reflexivity.
  assert (H3 : provider (long_env 1%float) = inr [x2a; x2b]) by reflexivity.
  assert (H4 : length [x2a; x2b] <> data_size (started 1 0.5%float)) by (cbn; lia).
  do 4 (split; [assumption |]).
  exact (wrong_length_payload_skips_tick (started 1 0.5%float) 1%float 1%float
           (long_env 1%float) [x2a; x2b] [] H1 H2 H3 H4).
Defined.

Example wrong_length_message :
  error_message (after_event (started 1 0.5%float, 1%float) (Tick 1%float (long_env 1%float)))
  = MsgDataProvider (ValueErrorSize 2 1).
Proof. vm_compute. reflexivity. Qed.

(** *** The first packet *)

(** C5 (counterexample): when the provider returns a payload of the
    wrong length in the first tick, that tick consumes sequence number 1
    without transmitting, and the first packet on the wire carries 2. *)
Lemma first_transmitted_packet_may_carry_two :
  snd (run 1 0.5%float 0%float
           [Tick 0%float (long_env 0%float); Tick 1%float (good_env 1%float)])
  = [[x02; x00; x2a]]
  /\ first_sequence_number
       (snd (run 1 0.5%float 0%float
                 [Tick 0%float (long_env 0%float); Tick 1%float (good_env 1%float)]))
     = Some 2.
Proof. vm_compute. split; reflexivity. Qed.

(** The first call of [_send_packet] always builds its header with
    sequence number 1. *)
Lemma first_call_sequence_number size interval env :
  sequence_number (fst (fst (_send_packet (started size interval) env))) = 1.
Proof. rewrite send_packet_sequence_number. reflexivity. Qed.

(** C5 (amended): the sender increments its sequence number modulo 256
    before it builds the header, so a run whose first tick transmits puts
    sequence number 1, not 0, on the wire first.  (A tick that is skipped
    or fails still uses up its sequence number.) *)
Theorem first_packet_carries_one size interval start_time current_time env evs :
  sent_by (started size interval, start_time) (Tick current_time env) <> [] ->
  first_sequence_number (snd (run size interval start_time (Tick current_time env :: evs)))
  = Some 1.
Proof.
  intros Hsent.
  destruct (body_sends_only_when_due_and_returning _ _ _ Hsent) as [Hdue Hret].
  cbn [fst snd] in Hdue, Hret.
  pose proof (send_packet_sent_header (started size interval) env) as Hhead.
  unfold run. cbn [_send_loop fst].
  change (_running (started size interval)) with true. cbv iota.
  unfold sent_by in Hsent. rewrite body_tick, Hdue, Hret in *. cbn [fst snd] in Hsent.
  destruct (_send_loop _ evs) as [st' sent'].
  destruct (snd (fst (_send_packet (started size interval) env))) as [| d sent];
    [congruence |].
  cbn. f_equal.
  assert (Hlen : (0 < length (_send_buffer (started size interval)))%nat)
    by (cbn; unfold zero_bytes; rewrite length_replicate; lia).
  specialize (Hhead Hlen). inversion Hhead as [| ? ? Hd _]. exact Hd.
Qed.

Lemma first_packet_carries_one_witness :
  sent_by (started 1 0.5%float, 1%float) (Tick 1%float (good_env 1%float)) <> []
  /\ first_sequence_number
       (snd (run 1 0.5%float 1%float [Tick 1%float (good_env 1%float)])) = Some 1.
Proof.
  assert (Hsent : sent_by (started 1 0.5%float, 1%float) (Tick 1%float (good_env 1%float))
                  <> []) by (vm_compute; congruence).
  split; [exact Hsent |].
  exact (first_packet_carries_one 1 0.5%float 1%float 1%float (good_env 1%float) [] Hsent).
Defined.

(** *** The datagram on the wire *)

Lemma byte_of_int_in_range (v : Z) : 0 <= v < 256 -> is_Some (byte_of_int v).
Proof.
  intros Hv. rewrite <- (Z.mod_small v 256 Hv), <- land_0xFF. apply byte_of_int_land.
Qed.

Lemma byte_of_int_None (v : Z) : byte_of_int v = None <-> ~ 0 <= v < 256.
Proof.
  split.
  - intros Hnone Hv. destruct (byte_of_int_in_range v Hv) as [b Hb]. congruence.
  - intros Hv. unfold byte_of_int.
    destruct (Z.leb_spec 0 v), (Z.ltb_spec v 256); cbn; try reflexivity. lia.
Qed.

Lemma build_datagram (buf data : list byte) (b0 b1 : byte) (size : nat) :
  length buf = (2 + size)%nat ->
  bytearray_setslice (<[1%nat:=b1]> (<[0%nat:=b0]> buf)) size data = b0 :: b1 :: data.
Proof.
  intros Hbuf. destruct buf as [| x [| y rest]]; cbn in Hbuf; try lia.
  unfold bytearray_setslice. cbn. f_equal. f_equal.
  rewrite drop_ge by lia. apply app_nil_r.
Qed.

Lemma send_packet_success self env data c0 c1 :
  length (_send_buffer self) = (2 + data_size self)%nat ->
  byte_of_int (Z.land (sequence_number self + 1) 0xFF) = Some c0 ->
  byte_of_int (partner_seq_number self) = Some c1 ->
  provider env = inr data -> length data = data_size self -> sendto env = None ->
  _send_packet self env =
    (mkSender (data_size self) (send_interval self) (_running self)
              (Z.land (sequence_number self + 1) 0xFF) (partner_seq_number self)
              false MsgEmpty
              (mkStats (total_packets_sent (stats self) + 1) (total_send_errors (stats self))
                       (send_time env))
              (c0 :: c1 :: data),
     [c0 :: c1 :: data], None).
Proof.
  intros Hbuf Hb0' Hb1' Hdata Hlen' Hok.
  assert (Heq : negb (length data =? data_size self)%nat = false)
    by (apply negb_false_iff, Nat.eqb_eq; exact Hlen').
  send_packet_cases self env; try congruence.
  injection Hdata as <-. injection Hb0' as <-. injection Hb1' as <-.
  cbn. rewrite (build_datagram _ _ _ _ _ Hbuf). reflexivity.
Qed.

(** X10: a call of [_send_packet] whose provider returns [data_size] bytes
    and whose socket accepts the datagram puts exactly one datagram on the
    wire: the incremented sequence number, the partner sequence number set
    last, then the provider's bytes unchanged, [2 + data_size] bytes in
    all; it counts the packet, records the time and clears the error. *)
Theorem transmitted_datagram_layout self env data :
  length (_send_buffer self) = (2 + data_size self)%nat ->
  0 <= partner_seq_number self < 256 ->
  provider env = inr data -> length data = data_size self -> sendto env = None ->
  exists d,
    snd (fst (_send_packet self env)) = [d]
    /\ byte_at d 0 = Z.land (sequence_number self + 1) 0xFF
    /\ byte_at d 1 = partner_seq_number self
    /\ drop 2 d = data
    /\ length d = (2 + data_size self)%nat
    /\ snd (_send_packet self env) = None
    /\ total_packets_sent (get_stats (fst (fst (_send_packet self env))))
       = total_packets_sent (stats self) + 1
    /\ last_send_time (get_stats (fst (fst (_send_packet self env)))) = send_time env
    /\ error (fst (fst (_send_packet self env))) = false
    /\ error_message (fst (fst (_send_packet self env))) = MsgEmpty.
Proof.
  intros Hbuf Hpartner Hdata Hlen Hok.
  destruct (byte_of_int_land (sequence_number self + 1)) as [b0 Hb0].
  destruct (byte_of_int_in_range _ Hpartner) as [b1 Hb1].
  rewrite (send_packet_success self env data b0 b1 Hbuf Hb0 Hb1 Hdata Hlen Hok).
  exists (b0 :: b1 :: data). cbn [fst snd]. unfold byte_at. cbn.
  rewrite (int_of_byte_of_int _ _ Hb0), (int_of_byte_of_int _ _ Hb1), Hlen.
  repeat split.
Qed.

Lemma transmitted_datagram_layout_witness :
  length (_send_buffer (started 1 0.5%float)) = (2 + data_size (started 1 0.5%float))%nat
  /\ 0 <= partner_seq_number (started 1 0.5%float) < 256
  /\ provider (good_env 1%float) = inr [x2a]
  /\ length [x2a] = data_size (started 1 0.5%float)
  /\ sendto (good_env 1%float) = None
  /\ exists d,
      snd (fst (_send_packet (started 1 0.5%float) (good_env 1%float))) = [d]
      /\ byte_at d 0 = Z.land (sequence_number (started 1 0.5%float) + 1) 0xFF
      /\ byte_at d 1 = partner_seq_number (started 1 0.5%float)
      /\ drop 2 d = [x2a]
      /\ length d = (2 + data_size (started 1 0.5%float))%nat
      /\ snd (_send_packet (started 1 0.5%float) (good_env 1%float)) = None
      /\ total_packets_sent
           (get_stats (fst (fst (_send_packet (started 1 0.5%float) (good_env 1%float)))))
         = total_packets_sent (stats (started 1 0.5%float)) + 1
      /\ last_send_time
           (get_stats (fst (fst (_send_packet (started 1 0.5%float) (good_env 1%float)))))
         = send_time (good_env 1%float)
      /\ error (fst (fst (_send_packet (started 1 0.5%float) (good_env 1%float)))) = false
      /\ error_message (fst (fst (_send_packet (started 1 0.5%float) (good_env 1%float))))
         = MsgEmpty.
Proof.
  assert (H1 : length (_send_buffer (started 1 0.5%float))
               = (2 + data_size (started 1 0.5%float))%nat) by reflexivity.
  assert (H2 : 0 <= partner_seq_number (started 1 0.5%float) < 256) by (cbn; lia).
  assert (H3 : provider (good_env 1%float) = inr [x2a]) by reflexivity.
  assert (H4 : length [x2a] = data_size (started 1 0.5%float)) by reflexivity.
  assert (H5 : sendto (good_env 1%float) = None) by reflexivity.
  do 5 (split; [assumption |]).
  exact (transmitted_datagram_layout (started 1 0.5%float) (good_env 1%float) [x2a]
           H1 H2 H3 H4 H5).
Defined.

(** *** Failures of a tick *)

(** X11: when the socket refuses the datagram, nothing is on the wire and
    the packet is not counted as sent; the failure is counted and recorded,
    the sequence number is used up, and the deadline still moves on by one
    interval: the next tick is the retry. *)
Theorem socket_failure_tick self next_send_time current_time env data err :
  PrimFloat.leb next_send_time current_time = true ->
  0 <= partner_seq_number self < 256 ->
  provider env = inr data -> length data = data_size self -> sendto env = Some err ->
  let st := (self, next_send_time) in
  let ev := Tick current_time env in
  sent_by st ev = []
  /\ total_packets_sent (stats (after_event st ev)) = total_packets_sent (stats self)
  /\ total_send_errors (stats (after_event st ev)) = total_send_errors (stats self) + 1
  /\ error (after_event st ev) = true
  /\ error_message (after_event st ev) = MsgSocketSend err
  /\ sequence_number (after_event st ev) = Z.land (sequence_number self + 1) 0xFF
  /\ deadline_after st ev = (current_time + send_interval self)%float.
Proof.
  intros Hdue Hpartner Hdata Hlen' Hfail st ev.
  destruct (byte_of_int_land (sequence_number self + 1)) as [c0 Hc0].
  destruct (byte_of_int_in_range _ Hpartner) as [c1 Hc1].
  assert (Heq : negb (length data =? data_size self)%nat = false)
    by (apply negb_false_iff, Nat.eqb_eq; exact Hlen').
  unfold sent_by, after_event, deadline_after, st, ev. rewrite body_tick, Hdue.
  send_packet_cases self env; try congruence.
  injection Hfail as <-. cbn. repeat split.
Qed.

Lemma socket_failure_tick_witness :
  let self := started 1 0.5%float in
  let env := mkSendEnv (inr [x2a]) (Some (Other "Network is unreachable")) 1%float in
  let st := (self, 1%float) in
  let ev := Tick 1%float env in
  PrimFloat.leb 1%float 1%float = true
  /\ 0 <= partner_seq_number self < 256
  /\ provider env = inr [x2a]
  /\ length [x2a] = data_size self
  /\ sendto env = Some (Other "Network is unreachable")
  /\ sent_by st ev = []
  /\ total_packets_sent (stats (after_event st ev)) = total_packets_sent (stats self)
  /\ total_send_errors (stats (after_event st ev)) = total_send_errors (stats self) + 1
  /\ error (after_event st ev) = true
  /\ error_message (after_event st ev) = MsgSocketSend (Other "Network is unreachable")
  /\ sequence_number (after_event st ev) = Z.land (sequence_number self + 1) 0xFF
  /\ deadline_after st ev = (1 + send_interval self)%float.
Proof.
  set (self := started 1 0.5%float).
  set (env := mkSendEnv (inr [x2a]) (Some (Other "Network is unreachable")) 1%float).
  assert (H1 : PrimFloat.leb 1%float 1%float = true) by reflexivity.
  assert (H2 : 0 <= partner_seq_number self < 256) by (cbn; lia).
  assert (H3 : provider env = inr [x2a]) by reflexivity.
  assert (H4 : length [x2a] = data_size self) by reflexivity.
  assert (H5 : sendto env = Some (Other "Network is unreachable")) by reflexivity.
  do 5 (split; [assumption |]).
  exact (socket_failure_tick self 1%float 1%float env [x2a] _ H1 H2 H3 H4 H5).
Defined.

(** X12: a partner sequence number outside [range(256)] (set by
    [set_partner_seq_number], which checks nothing) makes every due tick
    fail while the header is built: nothing is sent, the error is counted
    and recorded as a send error, the sequence number is used up, and the
    deadline does not move, so the loop tries again in its next iteration;
    the bad value stays until it is set again. *)
Theorem bad_partner_seq_fails_tick self next_send_time current_time env :
  PrimFloat.leb next_send_time current_time = true ->
  ~ 0 <= partner_seq_number self < 256 ->
  let st := (self, next_send_time) in
  let ev := Tick current_time env in
  sent_by st ev = []
  /\ total_packets_sent (stats (after_event st ev)) = total_packets_sent (stats self)
  /\ total_send_errors (stats (after_event st ev)) = total_send_errors (stats self) + 1
  /\ error (after_event st ev) = true
  /\ error_message (after_event st ev) = MsgSend ValueErrorRange
  /\ sequence_number (after_event st ev) = Z.land (sequence_number self + 1) 0xFF
  /\ partner_seq_number (after_event st ev) = partner_seq_number self
  /\ deadline_after st ev = next_send_time.
Proof.
  intros Hdue Hpartner st ev. apply byte_of_int_None in Hpartner.
  destruct (byte_of_int_land (sequence_number self + 1)) as [c0 Hc0].
  unfold sent_by, after_event, deadline_after, st, ev. rewrite body_tick, Hdue.
  send_packet_cases self env; try congruence.
  cbn. repeat split.
Qed.

Lemma bad_partner_seq_fails_tick_witness :
  let self := set_partner_seq_number 256 (started 1 0.5%float) in
  let st := (self, 1%float) in
  let ev := Tick 1%float (good_env 1%float) in
  PrimFloat.leb 1%float 1%float = true
  /\ ~ 0 <= partner_seq_number self < 256
  /\ sent_by st ev = []
  /\ total_packets_sent (stats (after_event st ev)) = total_packets_sent (stats self)
  /\ total_send_errors (stats (after_event st ev)) = total_send_errors (stats self) + 1
  /\ error (after_event st ev) = true
  /\ error_message (after_event st ev) = MsgSend ValueErrorRange
  /\ sequence_number (after_event st ev) = Z.land (sequence_number self + 1) 0xFF
  /\ partner_seq_number (after_event st ev) = partner_seq_number self
  /\ deadline_after st ev = 1%float.
Proof.
  set (self := set_partner_seq_number 256 (started 1 0.5%float)).
  assert (H1 : PrimFloat.leb 1%float 1%float = true) by reflexivity.
  assert (H2 : ~ 0 <= partner_seq_number self < 256) by (cbn; lia).
  do 2 (split; [assumption |]).
  exact (bad_partner_seq_fails_tick self 1%float 1%float (good_env 1%float) H1 H2).
Defined.

(** *** Runs of the send loop *)

Lemma send_packet_consistent self env :
  consistent self ->
  consistent (fst (fst (_send_packet self env)))
  /\ Forall (fun d => length d = (2 + data_size self)%nat) (snd (fst (_send_packet self env)))
  /\ total_packets_sent (stats (fst (fst (_send_packet self env))))
     = total_packets_sent (stats self) + Z.of_nat (length (snd (fst (_send_packet self env)))).
Proof.
  intros [Hbuf Hseq]. pose proof (land_0xFF_range (sequence_number self + 1)) as Hr.
  unfold consistent.
  send_packet_cases self env; cbn; rewrite ?length_insert; repeat split;
    try constructor; try lia; try assumption; try constructor.
  all: apply negb_false_iff, Nat.eqb_eq in Hlen.
  all: rewrite (build_datagram _ _ _ _ _ Hbuf); cbn; lia.
Qed.

Lemma send_body_consistent st ev :
  consistent (fst st) ->
  consistent (after_event st ev)
  /\ data_size (after_event st ev) = data_size (fst st)
  /\ Forall (fun d => length d = (2 + data_size (fst st))%nat) (sent_by st ev)
  /\ total_packets_sent (stats (after_event st ev))
     = total_packets_sent (stats (fst st)) + Z.of_nat (length (sent_by st ev)).
Proof.
  destruct st as [self next_send_time]. cbn [fst]. intros Hc.
  unfold after_event, sent_by. destruct ev as [current_time env | seq_num |].
  - rewrite body_tick.
    destruct (PrimFloat.leb next_send_time current_time); [| cbn; repeat split; auto; try apply Hc; lia].
    destruct (send_packet_consistent self env Hc) as (Hc' & Hsent & Hcount).
    destruct (send_packet_config self env) as (_ & _ & Hsize).
    destruct (snd (_send_packet self env)); cbn [fst snd]; repeat split; auto.
    all: apply Hc'.
  - cbn. repeat split; auto; try apply Hc. lia.
  - cbn. repeat split; auto; try apply Hc. lia.
Qed.

Lemma send_loop_cons st ev evs :
  _send_loop st (ev :: evs) =
    if _running (fst st) then
      (fst (_send_loop (fst (_send_loop_body st ev)) evs),
       snd (_send_loop_body st ev) ++ snd (_send_loop (fst (_send_loop_body st ev)) evs))
    else (st, []).
Proof.
  cbn [_send_loop]. destruct (_running (fst st)); [| reflexivity].
  destruct (_send_loop_body st ev) as [st' sent]. cbn [fst snd].
  destruct (_send_loop st' evs) as [st'' sent']. reflexivity.
Qed.

(** X13: in every run of the send loop that starts in a consistent state
    (as a started sender is), the sequence number stays in [0,255], the
    send buffer keeps its [2 + data_size] bytes, every datagram put on the
    wire has exactly [2 + data_size] bytes, and [total_packets_sent] grows
    by exactly the number of datagrams put on the wire. *)
Theorem send_loop_consistent evs : forall st,
  consistent (fst st) ->
  consistent (fst (fst (_send_loop st evs)))
  /\ data_size (fst (fst (_send_loop st evs))) = data_size (fst st)
  /\ Forall (fun d => length d = (2 + data_size (fst st))%nat) (snd (_send_loop st evs))
  /\ total_packets_sent (stats (fst (fst (_send_loop st evs))))
     = total_packets_sent (stats (fst st)) + Z.of_nat (length (snd (_send_loop st evs))).
Proof.
  induction evs as [| ev evs IH]; intros st Hst.
  - cbn. repeat split; auto; try apply Hst. lia.
  - rewrite send_loop_cons.
    destruct (_running (fst st)); [| cbn; repeat split; auto; try apply Hst; lia].
    destruct (send_body_consistent st ev Hst) as (Hc & Hsize & Hsent & Hcount).
    unfold after_event, sent_by in *.
    destruct (IH _ Hc) as (Hc' & Hsize' & Hsent' & Hcount').
    cbn [fst snd]. rewrite Hsize in *. rewrite length_app.
    repeat split; try apply Hc'; try congruence; try lia.
    apply Forall_app. split; assumption.
Qed.

Lemma started_sender_consistent size interval : consistent (started size interval).
Proof.
  unfold consistent. cbn. unfold zero_bytes. rewrite length_replicate. lia.
Qed.

Lemma send_loop_consistent_witness :
  let st := (started 1 0.5%float, 0%float) in
  let evs := [Tick 0%float (long_env 0%float); Tick 1%float (good_env 1%float)] in
  consistent (fst st)
  /\ consistent (fst (fst (_send_loop st evs)))
  /\ data_size (fst (fst (_send_loop st evs))) = data_size (fst st)
  /\ Forall (fun d => length d = (2 + data_size (fst st))%nat) (snd (_send_loop st evs))
  /\ total_packets_sent (stats (fst (fst (_send_loop st evs))))
     = total_packets_sent (stats (fst st)) + Z.of_nat (length (snd (_send_loop st evs))).
Proof.
  split; [exact (started_sender_consistent 1 0.5%float) |].
  exact (send_loop_consistent
           [Tick 0%float (long_env 0%float); Tick 1%float (good_env 1%float)]
           (started 1 0.5%float, 0%float) (started_sender_consistent 1 0.5%float)).
Defined.

(** X14: every call of [_send_packet] uses up one sequence number, whether
    or not it transmits: after [n] calls the sequence number has advanced
    by [n] modulo 256, so it is back where it was after 256 calls. *)
Theorem sequence_number_after_calls envs : forall self,
  0 <= sequence_number self < 256 ->
  sequence_number (send_packets self envs)
  = (sequence_number self + Z.of_nat (length envs)) mod 256.
Proof.
  unfold send_packets.
  induction envs as [| env envs IH]; intros self Hseq; cbn [foldl length].
  - rewrite Z.add_0_r, Z.mod_small by exact Hseq. reflexivity.
  - rewrite IH by (rewrite send_packet_sequence_number; apply land_0xFF_range).
    rewrite send_packet_sequence_number, land_0xFF, Zplus_mod_idemp_l.
    f_equal. lia.
Qed.

Lemma sequence_number_after_calls_witness :
  0 <= sequence_number (started 1 0.5%float) < 256
  /\ sequence_number (send_packets (started 1 0.5%float)
                                   [long_env 0%float; good_env 1%float; good_env 2%float])
     = (sequence_number (started 1 0.5%float)
        + Z.of_nat (length [long_env 0%float; good_env 1%float; good_env 2%float])) mod 256.
Proof.
  assert (H : 0 <= sequence_number (started 1 0.5%float) < 256) by (cbn; lia).
  split; [exact H |].
  exact (sequence_number_after_calls [long_env 0%float; good_env 1%float; good_env 2%float]
           (started 1 0.5%float) H).
Defined.


(** Every datagram that a call puts on the wire echoes the partner
    sequence number in its second byte. *)
Lemma send_packet_sent_feedback self env :
  consistent self ->
  Forall (fun d => byte_at d 1 = partner_seq_number self) (snd (fst (_send_packet self env))).
Proof.
  intros [Hbuf _]. send_packet_cases self env; cbn [fst snd]; try constructor; [| constructor].
  cbn. rewrite (build_datagram _ _ _ _ _ Hbuf). unfold byte_at. cbn.
  apply int_of_byte_of_int. exact Hb1.
Qed.

(** With a partner sequence number that fits a byte no exception leaves
    [_send_packet]. *)
Lemma send_packet_returns self env :
  0 <= partner_seq_number self < 256 ->
  snd (_send_packet self env) = None
  /\ partner_seq_number (fst (fst (_send_packet self env))) = partner_seq_number self
  /\ (forall e, error_message self <> MsgSend e ->
                error_message (fst (fst (_send_packet self env))) <> MsgSend e).
Proof.
  intros Hpartner.
  destruct (byte_of_int_land (sequence_number self + 1)) as [c0 Hc0].
  destruct (byte_of_int_in_range _ Hpartner) as [c1 Hc1].
  send_packet_cases self env; try congruence; cbn; repeat split; congruence.
Qed.

End SenderSpec.

(** ** Statistics *)

Module StatisticsSpec.
Import Statistics.

Ltac split_ifs :=
  repeat match goal with
         | |- context [if ?c then _ else _] => destruct c
         end.

(** *** What each step of [update] leaves alone *)

Lemma update_own_interval_frame self send_seq_number elapsed_ms :
  let self' := _update_own_interval self send_seq_number elapsed_ms in
  _prev_send_seq_number self' = send_seq_number
  /\ _prev_recv_seq_number self' = _prev_recv_seq_number self
  /\ _rtt_tracked_seq_num self' = _rtt_tracked_seq_num self
  /\ last_rtt (stats self') = last_rtt (stats self)
  /\ total_partner_lost_packets (stats self') = total_partner_lost_packets (stats self).
Proof. unfold _update_own_interval. cbv zeta. split_ifs; repeat split. Qed.

Lemma update_partner_interval_frame self recv_seq_number elapsed_ms :
  let self' := _update_partner_interval self recv_seq_number elapsed_ms in
  _prev_recv_seq_number self' = recv_seq_number
  /\ _prev_send_seq_number self' = _prev_send_seq_number self
  /\ _rtt_tracked_seq_num self' = _rtt_tracked_seq_num self
  /\ last_rtt (stats self') = last_rtt (stats self)
  /\ total_partner_lost_packets (stats self') = total_partner_lost_packets (stats self).
Proof. unfold _update_partner_interval. cbv zeta. split_ifs; repeat split. Qed.

Lemma update_packet_loss_frame self recv_seq_number feedback_seq_number :
  let self' := _update_packet_loss self recv_seq_number feedback_seq_number in
  _prev_send_seq_number self' = _prev_send_seq_number self
  /\ _prev_recv_seq_number self' = _prev_recv_seq_number self
  /\ _rtt_tracked_seq_num self' = _rtt_tracked_seq_num self
  /\ last_rtt (stats self') = last_rtt (stats self).
Proof. unfold _update_packet_loss. cbv zeta. split_ifs; repeat split. Qed.

Lemma update_rtt_frame self send_seq_number feedback_seq_number elapsed_ms :
  total_partner_lost_packets
    (stats (_update_rtt self send_seq_number feedback_seq_number elapsed_ms))
  = total_partner_lost_packets (stats self).
Proof. unfold _update_rtt. cbv zeta. split_ifs; reflexivity. Qed.

(** *** The order of the steps

    [update] calls [_update_own_interval] and [_update_partner_interval]
    first.  Both store the current sequence number as the previous one, so
    [_update_packet_loss] and [_update_rtt], which run afterwards, compare
    the current sequence number with itself. *)

Lemma wrap_band_empty (x : Z) (low : Z) :
  low <= 250 -> ((0 <=? x) && (x <? low)) && (250 <? x) = false.
Proof.
  intros Hlow.
  destruct (Z.leb_spec 0 x), (Z.ltb_spec x low), (Z.ltb_spec 250 x); cbn; try reflexivity.
  lia.
Qed.

Lemma update_packet_loss_same_recv self recv_seq_number feedback_seq_number :
  _prev_recv_seq_number self = recv_seq_number ->
  total_partner_lost_packets
    (stats (_update_packet_loss self recv_seq_number feedback_seq_number))
  = total_partner_lost_packets (stats self).
Proof.
  intros Hprev. unfold _update_packet_loss. cbv zeta.
  rewrite Hprev, Z.sub_diag. change (Z.land 0 255) with 0.
  change ((1 <? 0) && (0 <? 128)) with false. cbv iota.
  rewrite Hprev.
  pose proof (wrap_band_empty recv_seq_number 5 ltac:(lia)) as Hband.
  destruct ((0 <=? recv_seq_number) && (recv_seq_number <? 5));
    destruct (250 <? recv_seq_number); try discriminate Hband;
    split_ifs; reflexivity.
Qed.

Lemma update_rtt_same_send self send_seq_number feedback_seq_number elapsed_ms :
  _prev_send_seq_number self = send_seq_number ->
  _rtt_tracked_seq_num self = 0 ->
  _update_rtt self send_seq_number feedback_seq_number elapsed_ms = self.
Proof.
  intros Hprev Hidle. unfold _update_rtt. rewrite Hidle, Hprev, !Z.eqb_refl. reflexivity.
Qed.

(** [update] never changes the partner loss counter. *)
Lemma update_partner_lost_packets self recv_seq_number send_seq_number feedback_seq_number
      current_time :
  total_partner_lost_packets
    (stats (update self recv_seq_number send_seq_number feedback_seq_number current_time))
  = total_partner_lost_packets (stats self).
Proof.
  unfold update. cbv zeta. rewrite update_rtt_frame.
  rewrite update_packet_loss_same_recv
    by apply (update_partner_interval_frame _ recv_seq_number).
  set (elapsed_ms := ((current_time - _last_update_time self) * 1000)%float).
  destruct (update_partner_interval_frame
              (_update_own_interval (set_last_update_time current_time self)
                                    send_seq_number elapsed_ms)
              recv_seq_number elapsed_ms) as (_ & _ & _ & _ & ->).
  destruct (update_own_interval_frame (set_last_update_time current_time self)
              send_seq_number elapsed_ms) as (_ & _ & _ & _ & ->).
  reflexivity.
Qed.

(** [update] never starts an RTT measurement and, while none is running,
    never changes [last_rtt]. *)
Lemma update_rtt_idle self recv_seq_number send_seq_number feedback_seq_number
      current_time :
  _rtt_tracked_seq_num self = 0 ->
  let self' :=
    update self recv_seq_number send_seq_number feedback_seq_number current_time in
  _rtt_tracked_seq_num self' = 0 /\ last_rtt (stats self') = last_rtt (stats self).
Proof.
  intros Hidle. unfold update. cbv zeta.
  set (elapsed_ms := ((current_time - _last_update_time self) * 1000)%float).
  set (s0 := set_last_update_time current_time self).
  assert (Htr0 : _rtt_tracked_seq_num s0 = _rtt_tracked_seq_num self) by reflexivity.
  assert (Hrtt0 : last_rtt (stats s0) = last_rtt (stats self)) by reflexivity.
  destruct (update_own_interval_frame s0 send_seq_number elapsed_ms)
    as (Hsend1 & _ & Htr1 & Hrtt1 & _).
  set (s1 := _update_own_interval s0 send_seq_number elapsed_ms) in *.
  destruct (update_partner_interval_frame s1 recv_seq_number elapsed_ms)
    as (_ & Hsend2 & Htr2 & Hrtt2 & _).
  set (s2 := _update_partner_interval s1 recv_seq_number elapsed_ms) in *.
  destruct (update_packet_loss_frame s2 recv_seq_number feedback_seq_number)
    as (Hsend3 & _ & Htr3 & Hrtt3).
  set (s3 := _update_packet_loss s2 recv_seq_number feedback_seq_number) in *.
  rewrite update_rtt_same_send by congruence.
  split; congruence.
Qed.

Lemma updates_partner_lost_packets ticks : forall self,
  total_partner_lost_packets (stats (updates self ticks))
  = total_partner_lost_packets (stats self).
Proof.
  unfold updates.
  induction ticks as [| k ticks IH]; intros self; cbn [foldl]; [reflexivity |].
  rewrite IH. apply update_partner_lost_packets.
Qed.

Lemma updates_rtt_idle ticks : forall self,
  _rtt_tracked_seq_num self = 0 ->
  _rtt_tracked_seq_num (updates self ticks) = 0
  /\ last_rtt (stats (updates self ticks)) = last_rtt (stats self).
Proof.
  unfold updates.
  induction ticks as [| k ticks IH]; intros self Hidle; cbn [foldl];
    [split; [exact Hidle | reflexivity] |].
  destruct (update_rtt_idle self (recv_seq k) (send_seq k) (feedback_seq k) (at_time k) Hidle)
    as [Hidle' Hrtt].
  destruct (IH _ Hidle') as [Hidle'' Hrtt'].
  split; congruence.
Qed.

(** *** The steps on their own

    Called with the previous sequence numbers still in place, the two
    methods do what their comments say. *)

Lemma update_packet_loss_gap self recv_seq_number feedback_seq_number :
  2 <= Z.land (recv_seq_number - _prev_recv_seq_number self) 0xFF <= 127 ->
  ((0 <=? recv_seq_number) && (recv_seq_number <? 5)) && (250 <? _prev_recv_seq_number self)
  = false ->
  total_partner_lost_packets
    (stats (_update_packet_loss self recv_seq_number feedback_seq_number))
  = total_partner_lost_packets (stats self)
    + (Z.land (recv_seq_number - _prev_recv_seq_number self) 0xFF - 1).
Proof.
  intros Hgap Hwrap. unfold _update_packet_loss. cbv zeta.
  set (diff := Z.land (recv_seq_number - _prev_recv_seq_number self) 255) in *.
  replace ((1 <? diff) && (diff <? 128)) with true
    by (symmetry; apply andb_true_iff; split; apply Z.ltb_lt; lia).
  cbn [_prev_recv_seq_number with_stats].
  destruct ((0 <=? recv_seq_number) && (recv_seq_number <? 5));
    destruct (250 <? _prev_recv_seq_number self); try discriminate Hwrap;
    split_ifs; reflexivity.
Qed.

Example update_packet_loss_alone :
  total_partner_lost_packets
    (stats (_update_packet_loss (set_prev_recv_seq_number 11 (init 10 0)) 15 0)) = 3.
Proof. vm_compute. reflexivity. Qed.

Example update_rtt_alone :
  let s0 := set_prev_send_seq_number 5 (init 10 0) in
  let s1 := set_prev_send_seq_number 6 (_update_rtt s0 6 4 10) in
  let s2 := _update_rtt s1 6 4 10 in
  let s3 := _update_rtt s2 6 6 10 in
  _rtt_tracked_seq_num s1 = 6 /\ _rtt_counter s1 = 0%float
  /\ last_rtt (stats s3) = 20%float /\ _rtt_tracked_seq_num s3 = 0.
Proof. vm_compute. repeat split. Qed.

(** *** The scenarios *)

(** C3 (not met by the code): the specification says that a tick whose
    partner sequence number is [d] ahead of the previous one, with [d] in
    [2,127], adds [d - 1] to [total_partner_lost_packets], so that
    observing 10, 11, 15, 16 adds 3.  In the code no call of [update],
    and so no sequence of calls, changes [total_partner_lost_packets]:
    the tracker that has seen 10 and 11 and then sees 15 still reports 0
    lost packets. *)
Theorem partner_loss_never_counted :
  (forall self ticks,
      total_partner_lost_packets (stats (updates self ticks))
      = total_partner_lost_packets (stats self))
  /\ _prev_recv_seq_number (updates tracker (take 2 loss_ticks)) = 11
  /\ Z.land (15 - 11) 0xFF = 4
  /\ total_partner_lost_packets (stats (updates tracker (take 2 loss_ticks))) = 0
  /\ total_partner_lost_packets (stats (updates tracker (take 3 loss_ticks))) = 0
  /\ total_partner_lost_packets (get_stats (updates tracker loss_ticks)) = 0.
Proof.
  split; [intros self ticks; apply updates_partner_lost_packets |].
  vm_compute. repeat split.
Qed.

(** C4 (not met by the code): the specification says that a change of the own
    sequence number starts a measurement that ends when the feedback
    echoes it, so that own 5, 6, 6, 6 with feedback 4, 4, 4, 6 at 10 ms
    per call gives [last_rtt = 20].  In the code no sequence of calls of
    [update] on a new tracker starts a measurement or changes [last_rtt]:
    it stays 0 in the scenario. *)
Theorem rtt_never_measured :
  (forall cycle start ticks,
      _rtt_tracked_seq_num (updates (init cycle start) ticks) = 0
      /\ last_rtt (stats (updates (init cycle start) ticks)) = 0%float)
  /\ _rtt_tracked_seq_num (updates tracker (take 2 rtt_ticks)) = 0
  /\ last_rtt (get_stats (updates tracker rtt_ticks)) = 0%float.
Proof.
  split; [intros cycle start ticks; apply (updates_rtt_idle ticks (init cycle start));
          reflexivity |].
  vm_compute. split; reflexivity.
Qed.

(** *** The feedback stream and the interval estimates *)

Ltac tracker_fields :=
  cbn [stats with_stats cycle_time_ms _own_cycle_counter _prev_send_seq_number
       _partner_cycle_counter _prev_recv_seq_number _prev_feedback_seq_number
       _rtt_counter _rtt_tracked_seq_num _last_update_time
       set_avg_partner_interval set_avg_own_interval set_last_rtt
       set_total_partner_lost_packets set_total_feedback_lost_packets
       set_own_cycle_counter set_prev_send_seq_number set_partner_cycle_counter
       set_prev_recv_seq_number set_prev_feedback_seq_number set_rtt_counter
       set_rtt_tracked_seq_num set_last_update_time
       avg_partner_interval avg_own_interval last_rtt total_partner_lost_packets
       total_feedback_lost_packets].

Ltac step_ifs :=
  repeat (match goal with
          | |- context [if ?c then _ else _] => destruct c
          end; tracker_fields).

Lemma update_own_interval_effect self send_seq_number elapsed :
  let self' := _update_own_interval self send_seq_number elapsed in
  avg_own_interval (stats self')
  = (if own_wrapped self send_seq_number && PrimFloat.ltb 0 (_own_cycle_counter self)
     then (_own_cycle_counter self / 256 - 2 * cycle_time_ms self)%float
     else avg_own_interval (stats self))
  /\ _own_cycle_counter self'
     = ((if own_wrapped self send_seq_number then 0 else _own_cycle_counter self)
        + elapsed)%float
  /\ avg_partner_interval (stats self') = avg_partner_interval (stats self)
  /\ _partner_cycle_counter self' = _partner_cycle_counter self
  /\ total_feedback_lost_packets (stats self') = total_feedback_lost_packets (stats self)
  /\ _prev_feedback_seq_number self' = _prev_feedback_seq_number self
  /\ cycle_time_ms self' = cycle_time_ms self
  /\ _last_update_time self' = _last_update_time self.
Proof.
  unfold _update_own_interval, own_wrapped. cbv zeta.
  destruct ((0 <=? send_seq_number) && (send_seq_number <? 3));
    destruct (250 <? _prev_send_seq_number self);
    destruct (PrimFloat.ltb 0 (_own_cycle_counter self)); cbn; repeat split.
Qed.

Lemma update_partner_interval_effect self recv_seq_number elapsed :
  let self' := _update_partner_interval self recv_seq_number elapsed in
  avg_partner_interval (stats self')
  = (if partner_wrapped self recv_seq_number && PrimFloat.ltb 0 (_partner_cycle_counter self)
     then (_partner_cycle_counter self / 256 - 2 * cycle_time_ms self)%float
     else avg_partner_interval (stats self))
  /\ _partner_cycle_counter self'
     = ((if partner_wrapped self recv_seq_number then 0 else _partner_cycle_counter self)
        + elapsed)%float
  /\ avg_own_interval (stats self') = avg_own_interval (stats self)
  /\ _own_cycle_counter self' = _own_cycle_counter self
  /\ total_feedback_lost_packets (stats self') = total_feedback_lost_packets (stats self)
  /\ _prev_feedback_seq_number self' = _prev_feedback_seq_number self
  /\ cycle_time_ms self' = cycle_time_ms self
  /\ _last_update_time self' = _last_update_time self.
Proof.
  unfold _update_partner_interval, partner_wrapped. cbv zeta.
  destruct ((0 <=? recv_seq_number) && (recv_seq_number <? 5));
    destruct (250 <? _prev_recv_seq_number self);
    destruct (PrimFloat.ltb 0 (_partner_cycle_counter self)); cbn; repeat split.
Qed.

Lemma update_packet_loss_effect self recv_seq_number feedback_seq_number :
  let self' := _update_packet_loss self recv_seq_number feedback_seq_number in
  total_feedback_lost_packets (stats self')
  = (if feedback_wrapped self feedback_seq_number then 0
     else if (1 <? Z.land (feedback_seq_number - _prev_feedback_seq_number self) 0xFF)
             && (Z.land (feedback_seq_number - _prev_feedback_seq_number self) 0xFF <? 128)
          then total_feedback_lost_packets (stats self)
               + (Z.land (feedback_seq_number - _prev_feedback_seq_number self) 0xFF - 1)
          else total_feedback_lost_packets (stats self))
  /\ _prev_feedback_seq_number self' = feedback_seq_number
  /\ avg_own_interval (stats self') = avg_own_interval (stats self)
  /\ _own_cycle_counter self' = _own_cycle_counter self
  /\ avg_partner_interval (stats self') = avg_partner_interval (stats self)
  /\ _partner_cycle_counter self' = _partner_cycle_counter self
  /\ _last_update_time self' = _last_update_time self.
Proof.
  unfold _update_packet_loss, feedback_wrapped. cbv zeta.
  set (recv_diff := Z.land (recv_seq_number - _prev_recv_seq_number self) 255).
  set (feedback_diff := Z.land (feedback_seq_number - _prev_feedback_seq_number self) 255).
  destruct ((1 <? recv_diff) && (recv_diff <? 128)); tracker_fields;
    destruct ((0 <=? recv_seq_number) && (recv_seq_number <? 5)); tracker_fields;
    destruct (250 <? _prev_recv_seq_number self); tracker_fields;
    fold feedback_diff;
    destruct ((1 <? feedback_diff) && (feedback_diff <? 128)); tracker_fields;
    destruct ((0 <=? feedback_seq_number) && (feedback_seq_number <? 15)); tracker_fields;
    destruct (240 <? _prev_feedback_seq_number self); cbn; repeat split.
Qed.

Lemma update_rtt_effect self send_seq_number feedback_seq_number elapsed :
  let self' := _update_rtt self send_seq_number feedback_seq_number elapsed in
  total_feedback_lost_packets (stats self') = total_feedback_lost_packets (stats self)
  /\ _prev_feedback_seq_number self' = _prev_feedback_seq_number self
  /\ avg_own_interval (stats self') = avg_own_interval (stats self)
  /\ _own_cycle_counter self' = _own_cycle_counter self
  /\ avg_partner_interval (stats self') = avg_partner_interval (stats self)
  /\ _partner_cycle_counter self' = _partner_cycle_counter self
  /\ _last_update_time self' = _last_update_time self.
Proof. unfold _update_rtt. cbv zeta. split_ifs; repeat split. Qed.

Ltac update_steps self recv_seq_number send_seq_number feedback_seq_number current_time :=
  unfold update, elapsed_ms; cbv zeta;
  set (elapsed := ((current_time - _last_update_time self) * 1000)%float);
  set (s0 := set_last_update_time current_time self);
  pose proof (update_own_interval_effect s0 send_seq_number elapsed) as Hown;
  pose proof (update_own_interval_frame s0 send_seq_number elapsed) as Hown';
  cbv zeta in Hown, Hown';
  set (s1 := _update_own_interval s0 send_seq_number elapsed) in *;
  pose proof (update_partner_interval_effect s1 recv_seq_number elapsed) as Hpartner;
  cbv zeta in Hpartner;
  set (s2 := _update_partner_interval s1 recv_seq_number elapsed) in *;
  pose proof (update_packet_loss_effect s2 recv_seq_number feedback_seq_number) as Hloss;
  cbv zeta in Hloss;
  set (s3 := _update_packet_loss s2 recv_seq_number feedback_seq_number) in *;
  pose proof (update_rtt_effect s3 send_seq_number feedback_seq_number elapsed) as Hrtt;
  cbv zeta in Hrtt;
  set (s4 := _update_rtt s3 send_seq_number feedback_seq_number elapsed) in *.

(** The net effect of [update] on the feedback stream. *)
Lemma update_feedback_effect self recv_seq_number send_seq_number feedback_seq_number
        current_time :
  let self' :=
    update self recv_seq_number send_seq_number feedback_seq_number current_time in
  let d := Z.land (feedback_seq_number - _prev_feedback_seq_number self) 0xFF in
  total_feedback_lost_packets (get_stats self')
  = (if feedback_wrapped self feedback_seq_number then 0
     else if (1 <? d) && (d <? 128) then total_feedback_lost_packets (stats self) + (d - 1)
          else total_feedback_lost_packets (stats self))
  /\ _prev_feedback_seq_number self' = feedback_seq_number.
Proof.
  cbv zeta. unfold get_stats. cbn [total_feedback_lost_packets].
  update_steps self recv_seq_number send_seq_number feedback_seq_number current_time.
  destruct Hrtt as (-> & -> & _). destruct Hloss as (-> & -> & _).
  destruct Hpartner as (_ & _ & _ & _ & Ht2 & Hp2 & _).
  destruct Hown as (_ & _ & _ & _ & Ht1 & Hp1 & _).
  unfold feedback_wrapped. rewrite Ht2, Hp2, Ht1, Hp1. split; reflexivity.
Qed.

(** X16: unlike the partner stream, the feedback stream is counted by
    [update]: a feedback byte that is [d] ahead of the one of the previous
    call, with [d] in [2,127], adds [d - 1] lost acknowledgements; a wrap
    (previous above 240, current below 15) sets the counter to 0 instead;
    anything else leaves it. *)
Theorem update_feedback_loss self recv_seq_number send_seq_number feedback_seq_number
        current_time :
  let self' :=
    update self recv_seq_number send_seq_number feedback_seq_number current_time in
  let d := Z.land (feedback_seq_number - _prev_feedback_seq_number self) 0xFF in
  total_feedback_lost_packets (get_stats self')
  = (if feedback_wrapped self feedback_seq_number then 0
     else if (1 <? d) && (d <? 128) then total_feedback_lost_packets (stats self) + (d - 1)
          else total_feedback_lost_packets (stats self))
  /\ _prev_feedback_seq_number self' = feedback_seq_number.
Proof. exact (update_feedback_effect self recv_seq_number send_seq_number feedback_seq_number current_time). Qed.

Lemma update_feedback_loss_nonneg self recv_seq_number send_seq_number feedback_seq_number
      current_time :
  0 <= total_feedback_lost_packets (stats self) ->
  0 <= total_feedback_lost_packets
         (stats (update self recv_seq_number send_seq_number feedback_seq_number current_time)).
Proof.
  intros Hpos.
  pose proof (update_feedback_effect self recv_seq_number send_seq_number feedback_seq_number
                current_time) as [Hloss _].
  cbv zeta in Hloss. unfold get_stats in Hloss. cbn [total_feedback_lost_packets] in Hloss.
  rewrite Hloss.
  destruct (feedback_wrapped self feedback_seq_number); [lia |].
  set (d := Z.land (feedback_seq_number - _prev_feedback_seq_number self) 255).
  destruct (Z.ltb_spec 1 d); cbn [andb]; [| lia].
  destruct (d <? 128); lia.
Qed.

(** X17: the loss counters that [get_stats] reports are never negative, in
    any sequence of calls of [update] on a tracker whose counters are not
    negative (a new one, or one that was reset). *)
Theorem loss_counters_nonnegative ticks : forall self,
  0 <= total_partner_lost_packets (stats self) ->
  0 <= total_feedback_lost_packets (stats self) ->
  0 <= total_partner_lost_packets (get_stats (updates self ticks))
  /\ 0 <= total_feedback_lost_packets (get_stats (updates self ticks)).
Proof.
  unfold get_stats. cbn [total_partner_lost_packets total_feedback_lost_packets].
  intros self Hp Hf. rewrite updates_partner_lost_packets. split; [exact Hp |].
  revert self Hp Hf. unfold updates.
  induction ticks as [| k ticks IH]; intros self Hp Hf; cbn [foldl]; [exact Hf |].
  apply IH.
  - rewrite update_partner_lost_packets. exact Hp.
  - apply update_feedback_loss_nonneg. exact Hf.
Qed.

Lemma loss_counters_nonnegative_witness :
  0 <= total_partner_lost_packets (stats tracker)
  /\ 0 <= total_feedback_lost_packets (stats tracker)
  /\ 0 <= total_partner_lost_packets (get_stats (updates tracker loss_ticks))
  /\ 0 <= total_feedback_lost_packets (get_stats (updates tracker loss_ticks)).
Proof.
  assert (H1 : 0 <= total_partner_lost_packets (stats tracker)) by (cbn; lia).
  assert (H2 : 0 <= total_feedback_lost_packets (stats tracker)) by (cbn; lia).
  do 2 (split; [assumption |]).
  exact (loss_counters_nonnegative loss_ticks tracker H1 H2).
Defined.

(** X18: the interval estimates change only in a call that detects a wrap
    of the stream (own: previous above 250 and current below 3; partner:
    previous above 250 and current below 5) with time accumulated; the new
    estimate is the accumulated time divided by 256 minus twice the cycle
    time.  The accumulator restarts at a wrap and otherwise grows by the
    time since the previous call of [update], which every call
    records. *)
Theorem update_interval_estimates self recv_seq_number send_seq_number feedback_seq_number
        current_time :
  let self' :=
    update self recv_seq_number send_seq_number feedback_seq_number current_time in
  avg_own_interval (get_stats self')
  = (if own_wrapped self send_seq_number && PrimFloat.ltb 0 (_own_cycle_counter self)
     then (_own_cycle_counter self / 256 - 2 * cycle_time_ms self)%float
     else avg_own_interval (stats self))
  /\ _own_cycle_counter self'
     = ((if own_wrapped self send_seq_number then 0 else _own_cycle_counter self)
        + elapsed_ms self current_time)%float
  /\ avg_partner_interval (get_stats self')
     = (if partner_wrapped self recv_seq_number
           && PrimFloat.ltb 0 (_partner_cycle_counter self)
        then (_partner_cycle_counter self / 256 - 2 * cycle_time_ms self)%float
        else avg_partner_interval (stats self))
  /\ _partner_cycle_counter self'
     = ((if partner_wrapped self recv_seq_number then 0 else _partner_cycle_counter self)
        + elapsed_ms self current_time)%float
  /\ _last_update_time self' = current_time.
Proof.
  cbv zeta. unfold get_stats. cbn [avg_own_interval avg_partner_interval].
  update_steps self recv_seq_number send_seq_number feedback_seq_number current_time.
  destruct Hrtt as (_ & _ & -> & -> & -> & -> & ->).
  destruct Hloss as (_ & _ & -> & -> & -> & -> & ->).
  destruct Hpartner as (-> & -> & -> & -> & _ & _ & _ & ->).
  destruct Hown as (-> & -> & Ha & Hc & _ & _ & Hcycle & ->).
  destruct Hown' as (_ & Hprev & _).
  unfold partner_wrapped. rewrite Ha, Hc, Hcycle, Hprev.
  repeat split.
Qed.

(** X19: [reset] zeroes the statistics and restarts the clock but keeps the
    previous sequence numbers; the call of [update] that follows it
    therefore counts the feedback gap since the last call before the
    reset, and no gap at all if the feedback byte has not moved. *)
Theorem reset_keeps_previous_sequence_numbers self now recv_seq_number send_seq_number
        feedback_seq_number current_time :
  let d := Z.land (feedback_seq_number - _prev_feedback_seq_number self) 0xFF in
  get_stats (reset self now) = mkStatistics 0 0 0 0 0
  /\ _prev_feedback_seq_number (reset self now) = _prev_feedback_seq_number self
  /\ _prev_send_seq_number (reset self now) = _prev_send_seq_number self
  /\ _prev_recv_seq_number (reset self now) = _prev_recv_seq_number self
  /\ elapsed_ms (reset self now) current_time = ((current_time - now) * 1000)%float
  /\ total_feedback_lost_packets
       (get_stats (update (reset self now) recv_seq_number send_seq_number
                          feedback_seq_number current_time))
     = (if feedback_wrapped self feedback_seq_number then 0
        else if (1 <? d) && (d <? 128) then d - 1 else 0).
Proof.
  cbv zeta.
  pose proof (update_feedback_effect (reset self now) recv_seq_number send_seq_number
                feedback_seq_number current_time) as [Hloss _].
  cbv zeta in Hloss. rewrite Hloss.
  repeat split.
Qed.

(** X20: a new tracker starts from previous sequence numbers 0, so its
    first call of [update] takes a feedback byte [f] in [2,127] for a gap
    and reports [f - 1] lost acknowledgements. *)
Theorem first_update_counts_from_zero cycle start recv_seq_number send_seq_number
        feedback_seq_number current_time :
  2 <= feedback_seq_number <= 127 ->
  total_feedback_lost_packets
    (get_stats (update (init cycle start) recv_seq_number send_seq_number
                       feedback_seq_number current_time))
  = feedback_seq_number - 1.
Proof.
  intros Hf.
  pose proof (update_feedback_effect (init cycle start) recv_seq_number send_seq_number
                feedback_seq_number current_time) as [Hloss _].
  cbv zeta in Hloss. rewrite Hloss.
  unfold feedback_wrapped. cbn [_prev_feedback_seq_number init stats
                                 total_feedback_lost_packets].
  change (240 <? 0) with false. rewrite andb_false_r, Z.sub_0_r, land_0xFF.
  rewrite Z.mod_small by lia.
  destruct (Z.ltb_spec 1 feedback_seq_number), (Z.ltb_spec feedback_seq_number 128);
    cbn [andb]; lia.
Qed.

Lemma first_update_counts_from_zero_witness :
  2 <= 40 <= 127
  /\ total_feedback_lost_packets (get_stats (update (init 10 0) 41 7 40 1)) = 40 - 1.
Proof.
  assert (H : 2 <= 40 <= 127) by lia.
  split; [exact H |].
  exact (first_update_counts_from_zero 10%float 0%float 41 7 40 1%float H).
Defined.

End StatisticsSpec.

(** ** The components together *)

Module SystemSpec.



(** *** The application *)

(** What every state of a started application satisfies. *)
Lemma started_application send_interval watch_interval keep now start_time :
  let m := Main.start (Main.init send_interval watch_interval keep now) start_time in
  Receiver.consistent (Main.receiver m)
  /\ Sender.consistent (Main.sender m)
  /\ 0 <= Sender.partner_seq_number (Main.sender m) < 256
  /\ Receiver.data_size (Main.receiver m) = Main.data_size
  /\ Sender.data_size (Main.sender m) = Main.data_size
  /\ (forall e, Sender.error_message (Main.sender m) <> Sender.MsgSend e).
Proof.
  cbv zeta. unfold Receiver.consistent, Sender.consistent, Receiver.is_seq. cbn.
  repeat split; try lia; discriminate.
Qed.

Lemma step_invariant m ev :
  Receiver.consistent (Main.receiver m) ->
  Sender.consistent (Main.sender m) ->
  0 <= Sender.partner_seq_number (Main.sender m) < 256 ->
  Receiver.data_size (Main.receiver m) = Main.data_size ->
  Sender.data_size (Main.sender m) = Main.data_size ->
  (forall e, Sender.error_message (Main.sender m) <> Sender.MsgSend e) ->
  let m' := Main.app (Main.step m ev) in
  (Receiver.consistent (Main.receiver m')
   /\ Sender.consistent (Main.sender m')
   /\ 0 <= Sender.partner_seq_number (Main.sender m') < 256
   /\ Receiver.data_size (Main.receiver m') = Main.data_size
   /\ Sender.data_size (Main.sender m') = Main.data_size
   /\ (forall e, Sender.error_message (Main.sender m') <> Sender.MsgSend e))
  /\ Forall (fun payload => length payload = Main.data_size)
            (Main.delivered (Main.step m ev))
  /\ Forall (fun d => length d = (2 + Main.data_size)%nat)
            (Main.transmitted (Main.step m ev)).
Proof.
  intros Hr Hs Hp Hrs Hss Hmsg. cbv zeta.
  unfold Main.app, Main.delivered, Main.transmitted.
  assert (Hnil : forall (P : list byte -> Prop), Forall P []) by (intros P; constructor).
  destruct ev as [ev | current_time env | now]; cbn [Main.step].
  - destruct (Receiver._running (Main.receiver m)); [| cbn [fst snd]; auto 12].
    pose proof (ReceiverSpec.body_consistent (Main.receiver m, Main.recv_buffer m) ev Hr)
      as (Hr' & Hsize & _ & Hcalls).
    destruct (Receiver._receive_loop_body _ ev) as [[r buf] calls]. cbn [fst snd] in *.
    rewrite Hrs in *. cbn [Main.receiver Main.sender]. auto 12.
  - destruct (Sender._running (Main.sender m)); [| cbn [fst snd]; auto 12].
    pose proof (SenderSpec.send_body_consistent (Main.sender m, Main.next_send_time m)
                  (Sender.Tick current_time env) Hs) as (Hs' & Hsize & Hsent & _).
    pose proof (SenderSpec.send_packet_returns (Main.sender m) env Hp) as (Hret & Hp' & Hmsg').
    unfold Sender.after_event, Sender.sent_by in *. rewrite SenderSpec.body_tick in *.
    rewrite Hret in *. cbn [fst] in Hsize, Hsent. rewrite Hss in *.
    destruct (PrimFloat.leb (Main.next_send_time m) current_time); cbn [fst snd] in *;
      cbn [Main.receiver Main.sender]; [| auto 12].
    rewrite Hp'. auto 12.
  - destruct (Main._running m); [| cbn [fst snd]; auto 12].
    destruct Hr as (Hdata & Hpartner & Hrest). unfold Receiver.is_seq in Hpartner.
    cbn [fst snd Main._statistics_loop_body Main.receiver Main.sender].
    assert (Hr : Receiver.consistent (Main.receiver m))
      by (unfold Receiver.consistent, Receiver.is_seq; auto).
    assert (Hs2 : Sender.consistent
                    (Sender.set_partner_seq_number
                       (Receiver.partner_seq_number (Main.receiver m)) (Main.sender m)))
      by exact Hs.
    cbn [Sender.partner_seq_number Sender.set_partner_seq_number Sender.data_size
         Sender.error_message].
    auto 12.
Qed.

Lemma steps_cons m ev evs :
  Main.steps m (ev :: evs) =
    (Main.app (Main.steps (Main.app (Main.step m ev)) evs),
     Main.delivered (Main.step m ev) ++ Main.delivered (Main.steps (Main.app (Main.step m ev)) evs),
     Main.transmitted (Main.step m ev)
       ++ Main.transmitted (Main.steps (Main.app (Main.step m ev)) evs)).
Proof.
  cbn [Main.steps]. unfold Main.app, Main.delivered, Main.transmitted.
  destruct (Main.step m ev) as [[m' calls] sent]. cbn [fst snd].
  destruct (Main.steps m' evs) as [[m'' calls'] sent']. reflexivity.
Qed.

Lemma steps_linked evs : forall m,
  Main.linked m ->
  Main.linked (Main.app (Main.steps m evs))
  /\ Forall (fun payload => length payload = Main.data_size)
            (Main.delivered (Main.steps m evs))
  /\ Forall (fun d => length d = (2 + Main.data_size)%nat)
            (Main.transmitted (Main.steps m evs)).
Proof.
  induction evs as [| ev evs IH]; intros m Hm.
  - cbn. repeat split; try constructor; apply Hm.
  - rewrite steps_cons.
    destruct Hm as (H1 & H2 & H3 & H4 & H5 & H6).
    destruct (step_invariant m ev H1 H2 H3 H4 H5 H6) as (Hm' & Hcalls & Hsent).
    destruct (IH _ Hm') as (Hm'' & Hcalls' & Hsent').
    unfold Main.app, Main.delivered, Main.transmitted in *. cbn [fst snd].
    split; [exact Hm'' |]. split; apply Forall_app; split; assumption.
Qed.

(** X22: in every interleaving of iterations of the three loops of a
    started application, the callback only ever receives payloads of 20
    bytes and only datagrams of 22 bytes are put on the wire; the partner
    sequence number that the statistics loop hands to the sender always
    fits a byte, so no exception ever leaves [_send_packet] and the
    sender never records a send error of that kind. *)
Theorem application_runs_linked evs send_interval watch_interval keep now start_time :
  let run :=
    Main.steps (Main.start (Main.init send_interval watch_interval keep now) start_time) evs in
  Forall (fun payload => length payload = 20%nat) (Main.delivered run)
  /\ Forall (fun d => length d = 22%nat) (Main.transmitted run)
  /\ 0 <= Sender.partner_seq_number (Main.sender (Main.app run)) < 256
  /\ 0 <= Sender.sequence_number (Main.sender (Main.app run)) < 256
  /\ length (Receiver.get_last_data (Main.receiver (Main.app run))) = 20%nat
  /\ (forall e,
        Sender.error_message (Main.sender (Main.app run)) <> Sender.MsgSend e).
Proof.
  cbv zeta.
  pose proof (started_application send_interval watch_interval keep now start_time) as Hm.
  cbv zeta in Hm.
  destruct (steps_linked evs _ Hm) as ((Hr & Hs & Hp & Hrs & Hss & Hmsg) & Hcalls & Hsent).
  destruct Hr as (Hdata & _). destruct Hs as (_ & Hseq).
  unfold Receiver.get_last_data. rewrite Hdata, Hrs.
  repeat split; try assumption; try apply Hp; try apply Hseq.
Qed.

(** X23: the sequence number of the last datagram of full length reaches
    the wire as feedback whether or not the receiver accepted the
    datagram: after the receive loop has processed it and the statistics
    loop has run once, a datagram that the send loop transmits carries the
    first byte of that datagram as its second byte. *)
Theorem feedback_echoes_last_datagram m d t1 t2 t3 env :
  Receiver._running (Main.receiver m) = true ->
  Main._running m = true ->
  Sender._running (Main.sender m) = true ->
  Sender.consistent (Main.sender m) ->
  Receiver.datagram_verdict (Main.receiver m) (Main.recv_buffer m) d <> Receiver.Undersized ->
  Forall (fun sent => byte_at sent 1 = byte_at d 0)
         (Main.transmitted
            (Main.steps m [Main.ReceiveIteration (Receiver.Datagram d t1);
                           Main.StatisticsIteration t2;
                           Main.SendIteration t3 env])).
Proof.
  intros Hrun_r Hrun Hrun_s Hs Hv.
  assert (Hpartner : Receiver.partner_seq_number
                       (Receiver.after_datagram (Main.receiver m) (Main.recv_buffer m) d t1)
                     = byte_at d 0).
  { pose proof (ReceiverSpec.datagram_step (Main.receiver m) (Main.recv_buffer m) d t1) as H.
    destruct (Receiver.datagram_verdict (Main.receiver m) (Main.recv_buffer m) d);
      [congruence | | |]; destruct H as (-> & _); reflexivity. }
  rewrite !steps_cons. unfold Main.transmitted, Main.app. cbn [Main.steps snd fst].
  rewrite !app_nil_r.
  unfold Receiver.after_datagram in Hpartner.
  cbn [Main.step]. rewrite Hrun_r.
  destruct (Receiver._receive_loop_body _ _) as [[r buf] calls]. cbn [fst snd] in *.
  cbn [Main._running]. rewrite Hrun. cbn [fst snd app Main._statistics_loop_body Main.sender
                                          Main.receiver Main.next_send_time].
  cbn [Sender._running Sender.set_partner_seq_number]. rewrite Hrun_s.
  pose proof (SenderSpec.send_packet_sent_feedback
                (Sender.set_partner_seq_number (Receiver.partner_seq_number r) (Main.sender m))
                env Hs) as Hecho.
  cbn [Sender.partner_seq_number Sender.set_partner_seq_number] in Hecho.
  rewrite Hpartner in Hecho.
  fold (Sender.set_partner_seq_number (Receiver.partner_seq_number r) (Main.sender m)).
  rewrite SenderSpec.body_tick.
  destruct (PrimFloat.leb (Main.next_send_time m) t3); [| constructor].
  rewrite Hpartner.
  destruct (snd (Sender._send_packet _ env)); cbn [fst snd]; exact Hecho.
Qed.

Lemma feedback_echoes_last_datagram_witness :
  Receiver._running (Main.receiver Main.example_app) = true
  /\ Main._running Main.example_app = true
  /\ Sender._running (Main.sender Main.example_app) = true
  /\ Sender.consistent (Main.sender Main.example_app)
  /\ Receiver.datagram_verdict (Main.receiver Main.example_app)
                               (Main.recv_buffer Main.example_app) Main.example_datagram
     <> Receiver.Undersized
  /\ Forall (fun sent => byte_at sent 1 = byte_at Main.example_datagram 0)
            (Main.transmitted
               (Main.steps Main.example_app
                           [Main.ReceiveIteration (Receiver.Datagram Main.example_datagram 1);
                            Main.StatisticsIteration 1;
                            Main.SendIteration 1 Main.example_env])).
Proof.
  assert (H1 : Receiver._running (Main.receiver Main.example_app) = true) by reflexivity.
  assert (H2 : Main._running Main.example_app = true) by reflexivity.
  assert (H3 : Sender._running (Main.sender Main.example_app) = true) by reflexivity.
  assert (H4 : Sender.consistent (Main.sender Main.example_app))
    by apply SenderSpec.started_sender_consistent.
  assert (H5 : Receiver.datagram_verdict (Main.receiver Main.example_app)
                 (Main.recv_buffer Main.example_app) Main.example_datagram
               <> Receiver.Undersized) by (vm_compute; discriminate).
  do 5 (split; [assumption |]).
  exact (feedback_echoes_last_datagram Main.example_app Main.example_datagram
           1%float 1%float 1%float Main.example_env H1 H2 H3 H4 H5).
Defined.

(** The echo of a datagram that the receiver rejected as stale. *)
Example stale_sequence_number_is_echoed :
  let r := Receiver.mkReceiver 20 1 false true 10 0 10 3 false Receiver.MsgEmpty
                               (Receiver.mkStats true 1 false 1 0) (zero_bytes 20) in
  let m := Main.mkMain r Receiver.fresh_recv_buffer (Sender.started 20 0.5) 0
                       (Statistics.init 500 0) true in
  let run := Main.steps m [Main.ReceiveIteration (Receiver.Datagram Main.example_datagram 1);
                           Main.StatisticsIteration 1;
                           Main.SendIteration 1 Main.example_env] in
  Receiver.datagram_verdict r Receiver.fresh_recv_buffer Main.example_datagram = Receiver.Stale
  /\ Main.transmitted run = [x01 :: x05 :: zero_bytes 20].
Proof. vm_compute. split; reflexivity. Qed.

End SystemSpec.
